(** * Verification of pyxtal/interface/gulp.py : the GULP deck writer and log parser

    Shallow embedding of the parts of [gulp.py] the specification talks about:
    the Python primitives the module relies on ([str.split], [str.find],
    [float()], [int()], [re.match] on the energy line, fixed-width
    formatting), the inorganic calculator [GULP] (deck writer [write] and
    log parser [read]), the molecular calculator [GULP_OC] ([write], [run],
    [read]) and the drivers [single_optimize] / [optimize].

    Python exceptions are modelled explicitly: every fallible primitive
    returns a [pyres], and the methods that mutate [self] run in a state
    monad in which a raised exception keeps the state reached at the raise
    (attributes assigned before the raise stay assigned, as in Python). *)

From Stdlib Require Import String Ascii List ZArith QArith Qabs Bool Lia DecimalString.
Import ListNotations.
Open Scope Z_scope.
Open Scope string_scope.

(* ------------------------------------------------------------------ *)
(** ** Python values and primitives *)

Module Py.

(** Python exceptions raised by the code paths we model. *)
Inductive exn :=
| IndexError
| ValueError
| TypeError (msg : string)
| AttributeError
| ZeroDivisionError
| UnboundLocalError
| KeyError (msg : string).

(** Result of a fallible Python expression. *)
Inductive pyres (A : Type) :=
| POk (a : A)
| PErr (e : exn).
Arguments POk {A} a.
Arguments PErr {A} e.

Definition pbind {A B} (m : pyres A) (k : A -> pyres B) : pyres B :=
  match m with POk a => k a | PErr e => PErr e end.

Notation "x <-? m ;; k" := (pbind m (fun x => k))
  (at level 61, m at next level, right associativity).

(** A Python [float].  Finite values are kept as the exact rational they
    denote (the rounding of a decimal literal to binary64 is not modelled);
    infinities and NaN are kept apart, since the code tests [np.isnan]. *)
Inductive pyfloat :=
| PFin (q : Q)
| PInf (neg : bool)
| PNaN.

Definition fneg (x : pyfloat) : pyfloat :=
  match x with
  | PFin q => PFin (- q)%Q
  | PInf b => PInf (negb b)
  | PNaN => PNaN
  end.

(** [np.isnan] on a Python float. *)
Definition isnan (x : pyfloat) : bool :=
  match x with PNaN => true | _ => false end.

(** [x / n] for a Python float [x] and a Python int [n] (here a [len]). *)
Definition fdiv_nat (x : pyfloat) (n : nat) : pyres pyfloat :=
  match n with
  | O => PErr ZeroDivisionError
  | _ =>
      match x with
      | PFin q => POk (PFin (q / inject_Z (Z.of_nat n))%Q)
      | other => POk other
      end
  end.

(** Characters for which [str.isspace] holds (ASCII part): this is both the
    separator set of [str.split()] and the class [\s] of [re]. *)
Definition is_space (c : ascii) : bool :=
  let n := nat_of_ascii c in
  ((9 <=? n)%nat && (n <=? 13)%nat) || ((28 <=? n)%nat && (n <=? 32)%nat).

Definition is_digit (c : ascii) : bool :=
  let n := nat_of_ascii c in (48 <=? n)%nat && (n <=? 57)%nat.

Definition digit_val (c : ascii) : Z := Z.of_nat (nat_of_ascii c - 48)%nat.

Definition to_lower (c : ascii) : ascii :=
  let n := nat_of_ascii c in
  if (65 <=? n)%nat && (n <=? 90)%nat then ascii_of_nat (n + 32)%nat else c.

(** [str.split()] with no argument: maximal runs of non-space characters. *)
Fixpoint split_go (cs : list ascii) (cur : list ascii) : list string :=
  match cs with
  | [] => match cur with [] => [] | _ => [string_of_list_ascii (rev cur)] end
  | c :: cs' =>
      if is_space c then
        match cur with
        | [] => split_go cs' []
        | _ => string_of_list_ascii (rev cur) :: split_go cs' []
        end
      else split_go cs' (c :: cur)
  end.

Definition split (s : string) : list string := split_go (list_ascii_of_string s) [].

(** [s.find(sub)], [None] standing for Python's [-1]. *)
Fixpoint find (s sub : string) : option nat :=
  if String.prefix sub s then Some O
  else match s with
       | EmptyString => None
       | String _ s' => option_map S (find s' sub)
       end.

(** [s.find(sub) != -1]. *)
Definition contains (s sub : string) : bool :=
  match find s sub with Some _ => true | None => false end.

(** [xs[n]] for [n >= 0]. *)
Definition index {A} (xs : list A) (n : nat) : pyres A :=
  match nth_error xs n with Some a => POk a | None => PErr IndexError end.

(** [xs[-1]]. *)
Definition index_last {A} (xs : list A) : pyres A :=
  match rev xs with a :: _ => POk a | [] => PErr IndexError end.

(** [xs[a:b]] for [0 <= a], [0 <= b]. *)
Definition slice {A} (a b : nat) (xs : list A) : list A := firstn (b - a) (skipn a xs).

(** [s[a:]] and [s[:b]] on strings. *)
Definition str_from (a : nat) (s : string) : string := substring a (String.length s - a) s.
Definition str_upto (b : nat) (s : string) : string := substring 0 b s.

(** Strip leading and trailing whitespace (done by [float()] and [int()]). *)
Fixpoint drop_space (cs : list ascii) : list ascii :=
  match cs with
  | c :: cs' => if is_space c then drop_space cs' else cs
  | [] => []
  end.

Definition strip (cs : list ascii) : list ascii := rev (drop_space (rev (drop_space cs))).

(** [digitpart ::= digit (["_"] digit)*]: value, number of digits, rest. *)
Fixpoint digits_go (cs : list ascii) (acc : Z) (n : nat) : Z * nat * list ascii :=
  match cs with
  | c :: cs' =>
      if is_digit c then digits_go cs' (acc * 10 + digit_val c) (S n)
      else if (c =? "_")%char then
        match cs' with
        | d :: cs'' => if is_digit d then digits_go cs'' (acc * 10 + digit_val d) (S n)
                       else (acc, n, cs)
        | [] => (acc, n, cs)
        end
      else (acc, n, cs)
  | [] => (acc, n, cs)
  end.

Definition digitpart (cs : list ascii) : option (Z * nat * list ascii) :=
  match cs with
  | c :: cs' => if is_digit c then Some (digits_go cs' (digit_val c) 1) else None
  | [] => None
  end.

(** [number ::= [digitpart] "." digitpart | digitpart ["."]]:
    mantissa, number of fractional digits, rest. *)
Definition number (cs : list ascii) : option (Z * nat * list ascii) :=
  match digitpart cs with
  | Some (ip, _, r) =>
      match r with
      | c :: r' =>
          if (c =? ".")%char then
            match digitpart r' with
            | Some (fp, m, r'') => Some (ip * 10 ^ Z.of_nat m + fp, m, r'')
            | None => Some (ip, O, r')
            end
          else Some (ip, O, r)
      | [] => Some (ip, O, r)
      end
  | None =>
      match cs with
      | c :: r' =>
          if (c =? ".")%char then
            match digitpart r' with
            | Some (fp, m, r'') => Some (fp, m, r'')
            | None => None
            end
          else None
      | [] => None
      end
  end.

(** [exponent ::= ("e" | "E") ["+" | "-"] digitpart], optional. *)
Definition exponent (cs : list ascii) : option (Z * list ascii) :=
  match cs with
  | c :: r =>
      if (c =? "e")%char || (c =? "E")%char then
        let '(neg, r') :=
          match r with
          | s :: r' => if (s =? "-")%char then (true, r')
                       else if (s =? "+")%char then (false, r') else (false, r)
          | [] => (false, r)
          end in
        match digitpart r' with
        | Some (e, _, r'') => Some (if neg then - e else e, r'')
        | None => None
        end
      else Some (0%Z, cs)
  | [] => Some (0%Z, cs)
  end.

Definition decimal_value (m : Z) (fd : nat) (e : Z) : Q :=
  let k := (e - Z.of_nat fd)%Z in
  if (0 <=? k)%Z then inject_Z (m * 10 ^ k) else Qmake m (Z.to_pos (10 ^ (- k))).

Definition lower_eq (cs : list ascii) (w : string) : bool :=
  if list_eq_dec ascii_dec (map to_lower cs) (list_ascii_of_string w) then true else false.

(** Unsigned part of [float()]: [inf], [infinity], [nan] in any case, or a
    decimal literal. *)
Definition absfloat (cs : list ascii) : option pyfloat :=
  if lower_eq cs "inf" || lower_eq cs "infinity" then Some (PInf false)
  else if lower_eq cs "nan" then Some PNaN
  else match number cs with
       | Some (m, fd, r) =>
           match exponent r with
           | Some (e, []) => Some (PFin (decimal_value m fd e))
           | _ => None
           end
       | None => None
       end.

(** Python's [float(s)] on a string. *)
Definition float (s : string) : pyres pyfloat :=
  let cs := strip (list_ascii_of_string s) in
  let '(neg, body) :=
    match cs with
    | c :: r => if (c =? "-")%char then (true, r)
                else if (c =? "+")%char then (false, r) else (false, cs)
    | [] => (false, cs)
    end in
  match absfloat body with
  | Some x => POk (if neg then fneg x else x)
  | None => PErr ValueError
  end.

(** Python's [int(s)] on a string (base 10). *)
Definition int (s : string) : pyres Z :=
  let cs := strip (list_ascii_of_string s) in
  let '(neg, body) :=
    match cs with
    | c :: r => if (c =? "-")%char then (true, r)
                else if (c =? "+")%char then (false, r) else (false, cs)
    | [] => (false, cs)
    end in
  match digitpart body with
  | Some (v, _, []) => POk (if neg then - v else v)%Z
  | _ => PErr ValueError
  end.

(** [np.array(rows)] on a list of float lists: a ragged list is refused
    (NumPy >= 1.24 raises [ValueError] on inhomogeneous shapes). *)
Definition np_array (rows : list (list pyfloat)) : pyres (list (list pyfloat)) :=
  match rows with
  | [] => POk rows
  | r :: _ =>
      if forallb (fun r' => Nat.eqb (length r') (length r)) rows then POk rows
      else PErr ValueError
  end.

(** [list(map(float, xs))] / [[float(x) for x in xs]]. *)
Fixpoint floats (xs : list string) : pyres (list pyfloat) :=
  match xs with
  | [] => POk []
  | x :: xs' => v <-? float x ;; vs <-? floats xs' ;; POk (v :: vs)
  end.

(** ** Formatting *)

Fixpoint spaces (n : nat) : string :=
  match n with O => "" | S n' => String " " (spaces n') end.

(** ["{:Ns}"]: left-aligned, padded to width [N], never truncated. *)
Definition fmt_s (w : nat) (s : string) : string := s ++ spaces (w - String.length s).

(** Right alignment, used for numbers. *)
Definition pad_left (w : nat) (s : string) : string := spaces (w - String.length s) ++ s.

Definition z_digits (z : Z) : string := DecimalString.NilEmpty.string_of_int (Z.to_int z).

(** [round(x)] with ties to even, for [x >= 0]. *)
Definition round_half_even (x : Q) : Z :=
  let a := Qnum x in let b := Zpos (Qden x) in
  let f := (a / b)%Z in let r := (a mod b)%Z in
  if (2 * r <? b)%Z then f
  else if (b <? 2 * r)%Z then (f + 1)%Z
  else if Z.even f then f else (f + 1)%Z.

(** ["{:W.Pf}"] on a finite float (exact value, rounded half to even). *)
Definition fmt_f (w p : nat) (q : Q) : string :=
  let neg := if Qlt_le_dec q 0%Q then true else false in
  let aq := if neg then (- q)%Q else q in
  let n := round_half_even (aq * inject_Z (10 ^ Z.of_nat p))%Q in
  let ip := (n / 10 ^ Z.of_nat p)%Z in
  let fp := (n mod 10 ^ Z.of_nat p)%Z in
  let frac := match p with
              | O => ""
              | _ => "." ++ (let d := z_digits fp in
                             String.concat "" (repeat "0" (p - String.length d)) ++ d)
              end in
  pad_left w ((if neg then "-" else "") ++ z_digits ip ++ frac).

(** [list(set(xs))] on strings.  CPython iterates a set of strings in an
    order fixed by the string hashes, which are salted per interpreter
    process ([PYTHONHASHSEED]); the only guarantees are that every element
    comes once and nothing else comes.  The writers take the iteration
    order as a function [f] satisfying [set_iteration f]. *)
Definition set_iteration (f : list string -> list string) : Prop :=
  forall xs, NoDup (f xs) /\ (forall x, In x (f xs) <-> In x xs).

(** ["\n"] *)
Definition nl : string := String "010" "".

(** ["{:d}"] on an int. *)
Definition fmt_d (w : nat) (z : Z) : string := pad_left w (z_digits z).

End Py.

(* ------------------------------------------------------------------ *)
(** ** [re.match(r"\s*<LIT>\s*=\s*(\S+)\s*eV", line)] *)

Module Re.
Import Py.

Fixpoint span_nonspace (cs : list ascii) : list ascii * list ascii :=
  match cs with
  | c :: cs' =>
      if is_space c then ([], cs)
      else let '(w, r) := span_nonspace cs' in (c :: w, r)
  | [] => ([], [])
  end.

Definition starts_with (cs : list ascii) (w : string) : bool :=
  let l := list_ascii_of_string w in
  if list_eq_dec ascii_dec (firstn (length l) cs) l then true else false.

(** Backtracking of the greedy group [(\S+)] inside the run [R] of
    non-space characters: the longest proper prefix [R[:j]], [j >= 1],
    followed in [R] by ["eV"]. *)
Fixpoint backtrack (R : list ascii) (j : nat) : option (list ascii) :=
  match j with
  | O => None
  | S j' => if starts_with (skipn j R) "eV" then Some (firstn j R) else backtrack R j'
  end.

(** Group 1 of a successful [re.match], [None] when the pattern does not
    match.  [\s*] before the literal, before ["="] and after it can only
    consume every space there (the next pattern item is a non-space);
    [(\S+)] is greedy, so the full run is tried first, then shorter ones. *)
Definition match_energy (lit line : string) : option string :=
  let cs := drop_space (list_ascii_of_string line) in
  let l := list_ascii_of_string lit in
  if starts_with cs lit then
    match drop_space (skipn (length l) cs) with
    | c :: r2 =>
        if (c =? "=")%char then
          let '(R, rest) := span_nonspace (drop_space r2) in
          match R with
          | [] => None
          | _ =>
              if starts_with (drop_space rest) "eV" then Some (string_of_list_ascii R)
              else option_map string_of_list_ascii (backtrack R (length R - 1))
          end
        else None
    | [] => None
    end
  else None.

End Re.

(* ------------------------------------------------------------------ *)
(** ** A state monad with Python exceptions *)

Module StExc.
Import Py.

(** Outcome of a statement sequence: it finishes, or raises with the state
    reached at the raise. *)
Inductive outcome (S A : Type) :=
| Done (s : S) (a : A)
| Raised (s : S) (e : exn).
Arguments Done {S A} s a.
Arguments Raised {S A} s e.

Definition St (S A : Type) := S -> outcome S A.

Definition ret {S A} (a : A) : St S A := fun s => Done s a.
Definition bind {S A B} (m : St S A) (k : A -> St S B) : St S B :=
  fun s => match m s with Done s' a => k a s' | Raised s' e => Raised s' e end.
Definition get {S} : St S S := fun s => Done s s.
Definition modify {S} (f : S -> S) : St S unit := fun s => Done (f s) tt.
Definition lift {S A} (r : pyres A) : St S A :=
  fun s => match r with POk a => Done s a | PErr e => Raised s e end.

(** Run a computation on one component [T] of the state [S]. *)
Definition zoom {S T A} (getf : S -> T) (setf : T -> S -> S) (m : St T A) : St S A :=
  fun s => match m (getf s) with
           | Done t a => Done (setf t s) a
           | Raised t e => Raised (setf t s) e
           end.

(** [m] keeps the invariant [P] of the state, whether it finishes or raises. *)
Definition preserves {S A} (P : S -> Prop) (m : St S A) : Prop :=
  forall s, P s -> match m s with Done s' _ => P s' | Raised s' _ => P s' end.

Notation "x <- m ;; k" := (bind m (fun x => k))
  (at level 61, m at next level, right associativity).
Notation "m ;;; k" := (bind m (fun _ => k)) (at level 61, right associativity).

End StExc.

(* ------------------------------------------------------------------ *)
(** ** pyxtal objects consumed by the calculators *)

Module Pyxtal.
Import Py.

(** A [pyxtal.lattice.Lattice], recorded by the constructor the code calls
    ([Lattice.from_matrix] or [Lattice.from_para]) and its [ltype]. *)
Inductive lattice :=
| FromMatrix (m : list (list pyfloat)) (ltype : string)
| FromPara (a b c alpha beta gamma : pyfloat) (ltype : string).

(** The parts of a [pyxtal] object read or updated by [GULP.read]. *)
Record pyxtal := mkPyxtal {
  group_symbol : string;          (* self.pyxtal.group.symbol *)
  lattice_ltype : string;         (* self.pyxtal.lattice.ltype *)
  atom_sites : list (list pyfloat); (* positions of self.pyxtal.atom_sites *)
  px_lattice : lattice            (* self.pyxtal.lattice *)
}.

End Pyxtal.

(* ------------------------------------------------------------------ *)
(** ** [class GULP]: the log parser [read] *)

Module GULP.
Import Py StExc Pyxtal.

(** The attributes of a [GULP] instance that [read] reads or assigns. *)
Record gulp := mkGulp {
  g_pyxtal : option pyxtal;
  g_symmetry : bool;
  g_pstress : option pyfloat;
  g_frac_coords : list (list pyfloat);
  g_lattice : lattice;
  g_iter : Z;
  g_energy : option pyfloat;
  g_energy_per_atom : option pyfloat;
  g_stress : option (list pyfloat);
  g_forces : option (list (list pyfloat));
  g_optimized : bool;
  g_cputime : pyfloat;
  g_error : bool
}.

Definition set_energy (e : option pyfloat) (g : gulp) : gulp :=
  {| g_pyxtal := g_pyxtal g; g_symmetry := g_symmetry g; g_pstress := g_pstress g;
     g_frac_coords := g_frac_coords g; g_lattice := g_lattice g; g_iter := g_iter g;
     g_energy := e; g_energy_per_atom := g_energy_per_atom g; g_stress := g_stress g;
     g_forces := g_forces g; g_optimized := g_optimized g; g_cputime := g_cputime g;
     g_error := g_error g |}.

Definition set_energy_per_atom (e : option pyfloat) (g : gulp) : gulp :=
  {| g_pyxtal := g_pyxtal g; g_symmetry := g_symmetry g; g_pstress := g_pstress g;
     g_frac_coords := g_frac_coords g; g_lattice := g_lattice g; g_iter := g_iter g;
     g_energy := g_energy g; g_energy_per_atom := e; g_stress := g_stress g;
     g_forces := g_forces g; g_optimized := g_optimized g; g_cputime := g_cputime g;
     g_error := g_error g |}.

Definition set_optimized (g : gulp) : gulp :=
  {| g_pyxtal := g_pyxtal g; g_symmetry := g_symmetry g; g_pstress := g_pstress g;
     g_frac_coords := g_frac_coords g; g_lattice := g_lattice g; g_iter := g_iter g;
     g_energy := g_energy g; g_energy_per_atom := g_energy_per_atom g; g_stress := g_stress g;
     g_forces := g_forces g; g_optimized := true; g_cputime := g_cputime g;
     g_error := g_error g |}.

Definition set_cputime (t : pyfloat) (g : gulp) : gulp :=
  {| g_pyxtal := g_pyxtal g; g_symmetry := g_symmetry g; g_pstress := g_pstress g;
     g_frac_coords := g_frac_coords g; g_lattice := g_lattice g; g_iter := g_iter g;
     g_energy := g_energy g; g_energy_per_atom := g_energy_per_atom g; g_stress := g_stress g;
     g_forces := g_forces g; g_optimized := g_optimized g; g_cputime := t;
     g_error := g_error g |}.

Definition set_stress (st : list pyfloat) (g : gulp) : gulp :=
  {| g_pyxtal := g_pyxtal g; g_symmetry := g_symmetry g; g_pstress := g_pstress g;
     g_frac_coords := g_frac_coords g; g_lattice := g_lattice g; g_iter := g_iter g;
     g_energy := g_energy g; g_energy_per_atom := g_energy_per_atom g; g_stress := Some st;
     g_forces := g_forces g; g_optimized := g_optimized g; g_cputime := g_cputime g;
     g_error := g_error g |}.

Definition set_forces (f : list (list pyfloat)) (g : gulp) : gulp :=
  {| g_pyxtal := g_pyxtal g; g_symmetry := g_symmetry g; g_pstress := g_pstress g;
     g_frac_coords := g_frac_coords g; g_lattice := g_lattice g; g_iter := g_iter g;
     g_energy := g_energy g; g_energy_per_atom := g_energy_per_atom g; g_stress := g_stress g;
     g_forces := Some f; g_optimized := g_optimized g; g_cputime := g_cputime g;
     g_error := g_error g |}.

Definition set_iter (n : Z) (g : gulp) : gulp :=
  {| g_pyxtal := g_pyxtal g; g_symmetry := g_symmetry g; g_pstress := g_pstress g;
     g_frac_coords := g_frac_coords g; g_lattice := g_lattice g; g_iter := n;
     g_energy := g_energy g; g_energy_per_atom := g_energy_per_atom g; g_stress := g_stress g;
     g_forces := g_forces g; g_optimized := g_optimized g; g_cputime := g_cputime g;
     g_error := g_error g |}.

Definition set_frac_coords (fc : list (list pyfloat)) (g : gulp) : gulp :=
  {| g_pyxtal := g_pyxtal g; g_symmetry := g_symmetry g; g_pstress := g_pstress g;
     g_frac_coords := fc; g_lattice := g_lattice g; g_iter := g_iter g;
     g_energy := g_energy g; g_energy_per_atom := g_energy_per_atom g; g_stress := g_stress g;
     g_forces := g_forces g; g_optimized := g_optimized g; g_cputime := g_cputime g;
     g_error := g_error g |}.

Definition set_lattice (l : lattice) (g : gulp) : gulp :=
  {| g_pyxtal := g_pyxtal g; g_symmetry := g_symmetry g; g_pstress := g_pstress g;
     g_frac_coords := g_frac_coords g; g_lattice := l; g_iter := g_iter g;
     g_energy := g_energy g; g_energy_per_atom := g_energy_per_atom g; g_stress := g_stress g;
     g_forces := g_forces g; g_optimized := g_optimized g; g_cputime := g_cputime g;
     g_error := g_error g |}.

Definition set_pyxtal (p : option pyxtal) (g : gulp) : gulp :=
  {| g_pyxtal := p; g_symmetry := g_symmetry g; g_pstress := g_pstress g;
     g_frac_coords := g_frac_coords g; g_lattice := g_lattice g; g_iter := g_iter g;
     g_energy := g_energy g; g_energy_per_atom := g_energy_per_atom g; g_stress := g_stress g;
     g_forces := g_forces g; g_optimized := g_optimized g; g_cputime := g_cputime g;
     g_error := g_error g |}.

(** [self.error = True; self.energy = None] *)
Definition fail (g : gulp) : gulp :=
  {| g_pyxtal := g_pyxtal g; g_symmetry := g_symmetry g; g_pstress := g_pstress g;
     g_frac_coords := g_frac_coords g; g_lattice := g_lattice g; g_iter := g_iter g;
     g_energy := None; g_energy_per_atom := g_energy_per_atom g; g_stress := g_stress g;
     g_forces := g_forces g; g_optimized := g_optimized g; g_cputime := g_cputime g;
     g_error := true |}.

(** State of [read]: [self] and the locals [lattice_para], [lattice_vector]. *)
Record rstate := mkR {
  self : gulp;
  lattice_para : option lattice;
  lattice_vector : option lattice
}.

Definition on_self (f : gulp -> gulp) (r : rstate) : rstate :=
  mkR (f (self r)) (lattice_para r) (lattice_vector r).
Definition set_para (l : lattice) (r : rstate) : rstate :=
  mkR (self r) (Some l) (lattice_vector r).
Definition set_vector (l : lattice) (r : rstate) : rstate :=
  mkR (self r) (lattice_para r) (Some l).

Fixpoint list_set {A} (xs : list A) (k : nat) (v : A) : list A :=
  match xs, k with
  | [], _ => []
  | _ :: xs', O => v :: xs'
  | x :: xs', S k' => x :: list_set xs' k' v
  end.

(** [self.pyxtal.atom_sites[k].update(XYZ)]; [self.pyxtal] is not [None]
    here ([len(self.pyxtal.atom_sites)] was evaluated first). *)
Definition update_site (k : nat) (xyz : list pyfloat) (g : gulp) : gulp :=
  match g_pyxtal g with
  | Some px =>
      set_pyxtal (Some (mkPyxtal (group_symbol px) (lattice_ltype px)
                          (list_set (atom_sites px) k xyz) (px_lattice px))) g
  | None => g
  end.

(** The literal of the energy regex, chosen on every line (lines 312-317). *)
Definition energy_literal (g : gulp) : pyres string :=
  let by_pressure :=
    match g_pstress g with
    | None => "Total lattice energy"
    | Some (PFin q) => if Qeq_bool q 0 then "Total lattice energy" else "Total lattice enthalpy"
    | Some _ => "Total lattice enthalpy"
    end in
  if g_symmetry g then
    match g_pyxtal g with
    | None => PErr AttributeError
    | Some px =>
        c <-? index (list_ascii_of_string (group_symbol px)) 0 ;;
        POk (if (c =? "P")%char then by_pressure else "Non-primitive unit cell")
    end
  else POk by_pressure.

(** "Final stress tensor components": lines [i+3 .. i+5], fields 1 and 3;
    the result is [stress] in the order [xx, yy, zz, yz, xz, xy] slots. *)
Definition stress_block (lines : list string) (i : nat) : pyres (list pyfloat) :=
  l0 <-? index lines (i + 3) ;; a0 <-? index (split l0) 1 ;; x0 <-? float a0 ;;
  b0 <-? index (split l0) 3 ;; y0 <-? float b0 ;;
  l1 <-? index lines (i + 4) ;; a1 <-? index (split l1) 1 ;; x1 <-? float a1 ;;
  b1 <-? index (split l1) 3 ;; y1 <-? float b1 ;;
  l2 <-? index lines (i + 5) ;; a2 <-? index (split l2) 1 ;; x2 <-? float a2 ;;
  b2 <-? index (split l2) 3 ;; y2 <-? float b2 ;;
  POk [x0; x1; x2; y0; y1; y2].

(** [[i + 1 for i, e in enumerate(t[1:]) if e == "-"]] *)
Fixpoint minus_positions (cs : list ascii) (k : nat) : list nat :=
  match cs with
  | [] => []
  | c :: cs' =>
      if (c =? "-")%char then S k :: minus_positions cs' (S k)
      else minus_positions cs' (S k)
  end.

Definition min_index (t : string) : list nat :=
  minus_positions (list_ascii_of_string (str_from 1 t)) 0.

(** Pass [j = 1] of the column-repair loop (lines 362-364). *)
Definition repair_j1 (g : string * string * string) : string * string * string :=
  let '(g0, g1, g2) := g in
  match min_index g1 with
  | [] => g
  | m :: _ => (g0, str_upto m g1, str_from m g1)
  end.

(** The column-repair loop of lines 350-364: negative numbers glued to the
    previous field are split at their minus signs. *)
Definition repair_row (g : string * string * string) : string * string * string :=
  let '(g0, g1, g2) := g in
  match min_index g0 with
  | [] => repair_j1 g
  | [m] => repair_j1 (str_upto m g0, str_from m g0, g1)
  | m0 :: m1 :: _ => (str_upto m0 g0, substring m0 (m1 - m0) g0, str_from m1 g0)  (* break *)
  end.

(** One row of "Final internal derivatives": [g = lines[s].split()[3:6]],
    padded with [" "] to three entries, repaired, then
    [G = [-float(x) * eV / Ang for x in g]] ([eV / Ang = 1] in ASE units). *)
Definition force_row (l : string) : pyres (list pyfloat) :=
  let g := slice 3 6 (split l) in
  let '(g0, g1, g2) := repair_row (nth 0 g " ", nth 1 g " ", nth 2 g " ") in
  vs <-? floats [g0; g1; g2] ;; POk (map fneg vs).

(** The [while True] loop over [lines[i+6]], [lines[i+7]], ...: stops at a
    dashed line, raises [IndexError] past the end of the log. *)
Fixpoint forces_rows (ls : list string) : pyres (list (list pyfloat)) :=
  match ls with
  | [] => PErr IndexError
  | l :: ls' =>
      if contains l "------------" then POk []
      else r <-? force_row l ;; rs <-? forces_rows ls' ;; POk (r :: rs)
  end.

(** The [while True] loop of a fractional-coordinates block:
    [XYZ = [float(x) for x in lines[s].split()[3:6]]], then
    [species.append(lines[s].split()[1])]. *)
Fixpoint coord_rows (ls : list string) : pyres (list (list pyfloat) * list string) :=
  match ls with
  | [] => PErr IndexError
  | l :: ls' =>
      if contains l "------------" then POk ([], [])
      else
        xyz <-? floats (slice 3 6 (split l)) ;;
        sp <-? index (split l) 1 ;;
        rest <-? coord_rows ls' ;;
        POk (xyz :: fst rest, sp :: snd rest)
  end.

(** One row of "Final Cartesian lattice vectors": [float(temp[k])], k = 0..2. *)
Definition cart_row (l : string) : pyres (list pyfloat) :=
  let t := split l in
  a0 <-? index t 0 ;; x0 <-? float a0 ;;
  a1 <-? index t 1 ;; x1 <-? float a1 ;;
  a2 <-? index t 2 ;; x2 <-? float a2 ;;
  POk [x0; x1; x2].

(** Lines [i+2 .. i+4] of the "Final Cartesian lattice vectors" block. *)
Definition cart_block (lines : list string) (i : nat) : pyres (list (list pyfloat)) :=
  l0 <-? index lines (i + 2) ;; r0 <-? cart_row l0 ;;
  l1 <-? index lines (i + 3) ;; r1 <-? cart_row l1 ;;
  l2 <-? index lines (i + 4) ;; r2 <-? cart_row l2 ;;
  POk [r0; r1; r2].

(** "Non-primitive lattice parameters": fields 2, 5, 8 of line [i+2] and
    fields 1, 3, 5 of line [i+3], then [Lattice.from_para(..., ltype)]. *)
Definition para_block (lines : list string) (i : nat) (ltype : string) : pyres lattice :=
  l0 <-? index lines (i + 2) ;;
  ta <-? index (split l0) 2 ;; a <-? float ta ;;
  tb <-? index (split l0) 5 ;; b <-? float tb ;;
  tc <-? index (split l0) 8 ;; c <-? float tc ;;
  l1 <-? index lines (i + 3) ;;
  tal <-? index (split l1) 1 ;; al <-? float tal ;;
  tbe <-? index (split l1) 3 ;; be <-? float tbe ;;
  tga <-? index (split l1) 5 ;; ga <-? float tga ;;
  POk (FromPara a b c al be ga ltype).

(** "Final asymmetric unit coordinates": [lines[i+6+k]] for each of the
    [len(self.pyxtal.atom_sites)] sites, updated one after the other. *)
Fixpoint asym_sites (lines : list string) (s k rem : nat) : St rstate unit :=
  match rem with
  | O => ret tt
  | S rem' =>
      l <- lift (index lines (s + k)) ;;
      xyz <- lift (floats (slice 3 6 (split l))) ;;
      modify (on_self (update_site k xyz)) ;;;
      asym_sites lines s (S k) rem'
  end.

(** The body of the [for i, line in enumerate(lines)] loop (lines 312-414). *)
Definition read_line (lines : list string) (ltype : string) (i : nat) (line : string)
  : St rstate unit :=
  r <- get ;;
  lit <- lift (energy_literal (self r)) ;;
  match Re.match_energy lit line with
  | Some grp =>
      e <- lift (float grp) ;;
      modify (on_self (set_energy (Some e))) ;;;
      r' <- get ;;
      epa <- lift (fdiv_nat e (length (g_frac_coords (self r')))) ;;
      modify (on_self (set_energy_per_atom (Some epa)))
  | None =>
  if contains line "Job Finished" then modify (on_self set_optimized)
  else if contains line "Total CPU time" then
    t <- lift (index_last (split line)) ;; x <- lift (float t) ;;
    modify (on_self (set_cputime x))
  else if contains line "Final stress tensor components" then
    st <- lift (stress_block lines i) ;; modify (on_self (set_stress st))
  else if contains line "Final internal derivatives" then
    fs <- lift (forces_rows (skipn (i + 6) lines)) ;;
    arr <- lift (np_array fs) ;; modify (on_self (set_forces arr))
  else if contains line " Cycle: " then
    t <- lift (index (split line) 1) ;; n <- lift (int t) ;;
    modify (on_self (set_iter n))
  else if contains line "Final asymmetric unit coordinates" then
    match g_pyxtal (self r) with
    | None => lift (PErr AttributeError)
    | Some px => asym_sites lines (i + 6) 0 (length (atom_sites px))
    end
  else if contains line "Final fractional coordinates of atoms" then
    rows <- lift (coord_rows (skipn (i + 6) lines)) ;;
    arr <- lift (np_array (fst rows)) ;;
    modify (on_self (set_frac_coords arr))
  else if contains line "Final Cartesian lattice vectors" then
    m <- lift (cart_block lines i) ;;
    modify (set_vector (FromMatrix m ltype))
  else if contains line "Non-primitive lattice parameters" then
    l <- lift (para_block lines i ltype) ;;
    modify (set_para l)
  else ret tt
  end.

(** The loop itself, inside the [try]. *)
Fixpoint scan (lines : list string) (ltype : string) (i : nat) (rest : list string)
  : St rstate unit :=
  match rest with
  | [] => ret tt
  | l :: rest' => read_line lines ltype i l ;;; scan lines ltype (S i) rest'
  end.

(** Line 306: [ltype]. *)
Definition read_ltype (g : gulp) : string :=
  match g_pyxtal g with Some px => lattice_ltype px | None => "triclinic" end.

(** Lines 310-417: [try: <loop> except: self.error = True; self.energy = None]. *)
Definition read_try (lines : list string) (g : gulp) : rstate :=
  match scan lines (read_ltype g) 0 lines (mkR g None None) with
  | Done r _ => r
  | Raised r _ => on_self fail r
  end.

(** [GULP.read] on the lines of the log ([f.readlines()]). *)
Definition read (lines : list string) (g : gulp) : gulp :=
  let r := read_try lines g in
  let g1 := match lattice_para r, lattice_vector r with
            | Some lp, _ => set_lattice lp (self r)
            | None, Some lv => set_lattice lv (self r)
            | None, None => fail (self r)
            end in
  let g2 := match g_pyxtal g1 with
            | Some px => set_pyxtal (Some (mkPyxtal (group_symbol px) (lattice_ltype px)
                                                   (atom_sites px) (g_lattice g1))) g1
            | None => g1
            end in
  match g_energy g2 with
  | None => fail g2
  | Some e => if isnan e then fail g2 else g2
  end.

(** The energy test of lines 429-431: [self.energy is None or np.isnan(self.energy)]. *)
Definition energy_bad (g : gulp) : bool :=
  match g_energy g with None => true | Some e => isnan e end.

Definition no_lattice (r : rstate) : bool :=
  match lattice_para r, lattice_vector r with None, None => true | _, _ => false end.

(** [k in d] / [d[k]] on a dictionary with distinct keys. *)
Fixpoint dict_lookup (k : string) (d : list (string * string)) : option string :=
  match d with
  | [] => None
  | (k', v) :: d' => if String.eqb k k' then Some v else dict_lookup k d'
  end.

(** ** [GULP.write] *)

(** What [GULP.write] reads from [self].  [para] is
    [self.lattice.get_para(degree=True)]; [w_pyxtal] holds the
    [(specie, position)] pairs of [self.pyxtal.atom_sites] and
    [self.pyxtal.group.number]. *)
Record winput := mkW {
  para : Q * Q * Q * Q * Q * Q;
  w_opt : string;
  w_symmetry : bool;
  w_pyxtal : option (list (string * (Q * Q * Q)) * Z);
  w_frac_coords : list (Q * Q * Q);
  w_sites : list string;
  w_ff : string;
  w_labels : option (list (string * string));
  w_steps : Z;
  w_pstress : option Q;
  w_dump : option string
}.

(** ["{:4s} {:12.6f} {:12.6f} {:12.6f} <kind> \n"] *)
Definition coord_line (sym : string) (c : Q * Q * Q) (kind : string) : string :=
  let '(x, y, z) := c in
  fmt_s 4 sym ++ " " ++ fmt_f 12 6 x ++ " " ++ fmt_f 12 6 y ++ " " ++ fmt_f 12 6 z
  ++ " " ++ kind ++ " " ++ nl.

(** Lines 258-272: the coordinate section. *)
Definition coords_section (w : winput) : string :=
  match w_symmetry w, w_pyxtal w with
  | true, Some (asites, number) =>
      String.concat "" (map (fun '(sym, pos) =>
        coord_line sym pos "core"
        ++ (if String.eqb (w_ff w) "catlow" && String.eqb sym "O"
            then coord_line sym pos "shell" else "")) asites)
      ++ nl ++ "space" ++ nl ++ fmt_d 0 number ++ nl
      ++ nl ++ "origin" ++ nl ++ "0 0 0" ++ nl
  | _, _ =>
      String.concat "" (map (fun '(c, site) => coord_line site c "core")
                            (combine (w_frac_coords w) (w_sites w)))
  end.

(** The line(s) of one species (lines 276-289). *)
Definition species_entry (w : winput) (specie : string) : string :=
  match w_labels w with
  | Some labels =>
      match dict_lookup specie labels with
      | Some sp => fmt_s 4 specie ++ " core " ++ sp ++ nl
      | None => fmt_s 4 specie ++ " core " ++ fmt_s 4 specie ++ nl
      end
  | None =>
      if String.eqb (w_ff w) "catlow" && String.eqb specie "O"
      then "O    core O_O2- core" ++ nl ++ "O    shell O_O2- shell" ++ nl
      else fmt_s 4 specie ++ " core " ++ fmt_s 4 specie ++ nl
  end.

(** Line 273: [species = list(set(self.sites))]; [self.species] is always
    [None] after [__init__] (line 142), so [self.structure.species] is never
    used. *)
Definition species_section (set_order : list string -> list string) (w : winput) : string :=
  String.concat "" (map (species_entry w) (set_order (w_sites w))).

(** [GULP.write] (lines 240-300): the text of the deck. *)
Definition write (set_order : list string -> list string) (w : winput) : string :=
  let '(a, b, c, alpha, beta, gamma) := para w in
  (if String.eqb (w_opt w) "conv" then "opti stress " ++ w_opt w ++ " conjugate "
   else if String.eqb (w_opt w) "single" then "grad conp stress "
   else "opti stress " ++ w_opt w ++ " conjugate ")
  ++ (if w_symmetry w then "" else "nosymmetry" ++ nl)
  ++ nl ++ "cell" ++ nl
  ++ fmt_f 12 6 a ++ fmt_f 12 6 b ++ fmt_f 12 6 c ++ fmt_f 12 6 alpha ++ fmt_f 12 6 beta
  ++ fmt_f 12 6 gamma ++ nl
  ++ nl ++ "fractional" ++ nl
  ++ coords_section w
  ++ nl ++ "Species" ++ nl
  ++ species_section set_order w
  ++ nl ++ "library " ++ w_ff w ++ nl
  ++ "ewald 10.0" ++ nl
  ++ (if String.eqb (w_opt w) "single" then "" else "maxcycle " ++ fmt_d 0 (w_steps w) ++ nl)
  ++ (match w_pstress w with Some p => "pressure " ++ fmt_f 6 3 p ++ nl | None => "" end)
  ++ (match w_dump w with Some d => "output cif " ++ d ++ nl | None => "" end).

End GULP.

(* ------------------------------------------------------------------ *)
(** ** [class GULP_OC]: the molecular-crystal calculator *)

Module GULP_OC.
Import Py StExc Pyxtal.

(** The module-level dictionary [at_types] (lines 13-97). *)
Definition at_types : list (string * string) :=
  [("C_c", "C1"); ("C_cs", "C2"); ("C_c1", "C3"); ("C_c2", "C4"); ("C_c3", "C5");
   ("C_ca", "C6"); ("C_cp", "C7"); ("C_cq", "C8"); ("C_cc", "C9"); ("C_cd", "C10");
   ("C_ce", "C11"); ("C_cf", "C12"); ("C_cg", "C13"); ("C_ch", "C14"); ("C_cx", "C15");
   ("C_cy", "C14"); ("C_cu", "C16"); ("C_cv", "C17"); ("C_cz", "C18"); ("H_h1", "H1");
   ("H_h2", "H2"); ("H_h3", "H3"); ("H_h4", "H4"); ("H_h5", "H5"); ("H_ha", "H6");
   ("H_hc", "H7"); ("H_hn", "H8"); ("H_ho", "H9"); ("H_hp", "H10"); ("H_hs", "H11");
   ("H_hw", "H12"); ("H_hx", "H13"); ("F", "F"); ("Cl", "Cl"); ("Br", "Br");
   ("I", "I"); ("N_n", "N1"); ("N_n1", "N2"); ("N_n2", "N3"); ("N_n3", "N4");
   ("N_n4", "N5"); ("N_na", "N6"); ("N_nb", "N7"); ("N_nc", "N8"); ("N_nd", "N9");
   ("N_ne", "N10"); ("N_nf", "N11"); ("N_nh", "N12"); ("N_no", "N13"); ("N_ns", "N14");
   ("N_nt", "N15"); ("N_nx", "N16"); ("N_ny", "N17"); ("N_nz", "N18"); ("N_n+", "N19");
   ("N_nu", "N20"); ("N_nv", "N21"); ("N_n7", "N22"); ("N_n8", "N23"); ("N_n9", "N24");
   ("O_o", "O1"); ("O_oh", "O2"); ("O_os", "O3"); ("O_ow", "O4"); ("P_p2", "P1");
   ("P_p3", "P2"); ("P_p4", "P3"); ("P_p5", "P4"); ("P_pb", "P5"); ("P_pc", "P6");
   ("P_pd", "P7"); ("P_pe", "P8"); ("P_pf", "P9"); ("P_px", "P10"); ("P_py", "P11");
   ("S_s", "S1"); ("S_s2", "S2"); ("S_s4", "S3"); ("S_s6", "S4"); ("S_sh", "S5");
   ("S_ss", "S6"); ("S_sx", "S7"); ("S_sy", "S8")].

(** [d[k]] on a dictionary with distinct keys. *)
Fixpoint lookup {A} (k : string) (d : list (string * A)) : option A :=
  match d with
  | [] => None
  | (k', v) :: d' => if String.eqb k k' then Some v else lookup k d'
  end.

(** One [mol_site] of the molecular crystal, as [write] reads it. *)
Record mol_site := mkMolSite {
  coords : list (Q * Q * Q);       (* site._get_coords_and_species(first=True)[0] *)
  mol_species : list string;       (* site.molecule.mol.sites[j].species_string *)
  gmx_label : list string;         (* site.molecule.props["gmx_label"] *)
  charge : list Q;                 (* site.molecule.props["charge"] *)
  site_type : string;              (* site.type *)
  wp_ops : list (list (list Q) * list Q); (* site.wp.ops: rotation matrix, translation *)
  wp_len : nat;                    (* len(site.wp) *)
  bonds : list (Z * Z)             (* ids of site.mol.molTopol.bonds *)
}.

(** [atom_info]: per-type labels and charges. *)
Record atom_info := mkAtomInfo {
  ai_label : list (string * list string);
  ai_charge : list (string * list Q)
}.

(** The attributes of a [GULP_OC] instance and of its structure that
    [write] reads.  [lat.a] ... and [np.degrees(lat.alpha)] ... are given
    as numbers, [str(self.stepmx)] as its text. *)
Record oc_input := mkOCInput {
  lat_abc : Q * Q * Q;
  lat_angles : Q * Q * Q;
  lat_ltype : string;
  opt : string;
  ff : string;
  bond_type : bool;
  steps : Z;
  stepmx : string;
  dump : option string;
  info : option atom_info;
  mol_sites : list mol_site
}.

Definition emit (s : string) : St string unit := modify (fun d => d ++ s).

(** [symbol = species_string; if symbol not in ["F", "Cl", "Br"]: symbol += "_" + labels[j]] *)
Definition atom_symbol (sp : string) (labels : list string) (j : nat) : pyres string :=
  if existsb (String.eqb sp) ["F"; "Cl"; "Br"] then POk sp
  else lab <-? index labels j ;; POk (sp ++ "_" ++ lab).

(** [site.molecule.mol.sites[j].species_string], completed by the label. *)
Definition atom_sym (ms : mol_site) (labels : list string) (j : nat) : pyres string :=
  sp <-? index (mol_species ms) j ;; atom_symbol sp labels j.

(** The force-field code of a symbol: [at_types[symbol]] (a pure lookup). *)
Definition classify (symbol : string) : option string := lookup symbol at_types.

Definition unsupported_msg (symbol : string) : string :=
  "symbol " ++ symbol ++ " is not supported in GULP-gaff2.lib".

(** The inner loop [for j, coord in enumerate(coords)] (lines 555-567);
    returns the symbols appended to [symbols]. *)
Fixpoint write_atoms (ms : mol_site) (labels : list string) (charges : list Q)
    (cs : list (Q * Q * Q)) (j : nat) : St string (list string) :=
  match cs with
  | [] => ret []
  | (x, y, z) :: cs' =>
      sym <- lift (atom_sym ms labels j) ;;
      match classify sym with
      | None => lift (PErr (KeyError (unsupported_msg sym)))
      | Some code =>
          ch <- lift (index charges j) ;;
          emit (fmt_s 4 code ++ " " ++ fmt_f 12 6 x ++ " " ++ fmt_f 12 6 y ++ " "
                ++ fmt_f 12 6 z ++ " core " ++ fmt_f 12 6 ch ++ String "010" "") ;;;
          rest <- write_atoms ms labels charges cs' (S j) ;;
          ret (sym :: rest)
      end
  end.

(** [labels], [charges] of one site (lines 549-554). *)
Definition site_labels (inp : oc_input) (ms : mol_site) : pyres (list string * list Q) :=
  match info inp with
  | None => POk (gmx_label ms, charge ms)
  | Some ai =>
      match lookup (site_type ms) (ai_label ai), lookup (site_type ms) (ai_charge ai) with
      | Some l, Some c => POk (l, c)
      | _, _ => PErr (KeyError (site_type ms))
      end
  end.

(** The outer loop over [self.structure.mol_sites] (lines 547-567). *)
Fixpoint write_sites (inp : oc_input) (sites : list mol_site) : St string (list string) :=
  match sites with
  | [] => ret []
  | ms :: sites' =>
      lc <- lift (site_labels inp ms) ;;
      syms <- write_atoms ms (fst lc) (snd lc) (coords ms) 0 ;;
      rest <- write_sites inp sites' ;;
      ret (syms ++ rest)%list
  end.

(** One [symmetry_operator] block: rows of [rotation_matrix.T] and the
    translation component, ["{:6.3f} {:6.3f} {:6.3f} {:6.3f}"]. *)
Definition op_lines (op : list (list Q) * list Q) : pyres string :=
  let '(rot, tr) := op in
  let row i :=
    r0 <-? index rot 0 ;; r1 <-? index rot 1 ;; r2 <-? index rot 2 ;;
    a <-? index r0 i ;; b <-? index r1 i ;; c <-? index r2 i ;; t <-? index tr i ;;
    POk (fmt_f 6 3 a ++ " " ++ fmt_f 6 3 b ++ " " ++ fmt_f 6 3 c ++ " " ++ fmt_f 6 3 t ++ nl) in
  l0 <-? row 0%nat ;; l1 <-? row 1%nat ;; l2 <-? row 2%nat ;;
  POk ("symmetry_operator" ++ nl ++ l0 ++ l1 ++ l2).

Fixpoint emit_ops (ops : list (list (list Q) * list Q)) : St string unit :=
  match ops with
  | [] => ret tt
  | op :: ops' => s <- lift (op_lines op) ;; emit s ;;; emit_ops ops'
  end.

(** [connect] lines: [for bond in site0 bonds: for i in range(len(site.wp))],
    where [site] and [coords] are the variables left by the last iteration
    of the coordinate loop. *)
Definition connect_lines (bs : list (Z * Z)) (nwp ncoords : nat) : string :=
  String.concat ""
    (flat_map (fun b =>
       map (fun i =>
              let count := Z.of_nat (i * ncoords) in
              "connect " ++ fmt_d 4 (fst b + count) ++ " " ++ fmt_d 4 (snd b + count) ++ nl)
           (seq 0 nwp)) bs).

(** The Species section: one line per element of [list(set(symbols))]. *)
Definition species_lines (order : list string) : string :=
  String.concat "" (map (fun sym =>
    match classify sym with
    | Some code => fmt_s 4 code ++ " core " ++ fmt_s 4 sym ++ nl
    | None => ""
    end) order).

(** [GULP_OC.write] (lines 524-604); [set_order] is the iteration order of
    [list(set(...))].  The copy of the library file is not modelled. *)
Definition write (set_order : list string -> list string) (inp : oc_input) : St string unit :=
  let '(a, b, c) := lat_abc inp in
  let '(al, be, ga) := lat_angles inp in
  emit (if String.eqb (opt inp) "conv"
        then "opti " ++ opt inp ++ " conj molecule nomod qok" ++ nl
        else "opti stress " ++ opt inp ++ " conj molecule nomod qok" ++ nl) ;;;
  emit (nl ++ "cell" ++ nl) ;;;
  emit (fmt_f 12 6 a ++ fmt_f 12 6 b ++ fmt_f 12 6 c ++ fmt_f 12 6 al ++ fmt_f 12 6 be
        ++ fmt_f 12 6 ga ++ nl) ;;;
  emit (nl ++ "fractional" ++ nl) ;;;
  symbols <- write_sites inp (mol_sites inp) ;;
  emit (nl ++ "Species" ++ nl) ;;;
  emit (species_lines (set_order symbols)) ;;;
  emit (nl ++ "symmetry_cell " ++ lat_ltype inp ++ nl) ;;;
  site0 <- lift (index (mol_sites inp) 0) ;;
  emit_ops (skipn 1 (wp_ops site0)) ;;;
  (if bond_type inp then
     match rev (mol_sites inp) with
     | last :: _ => emit (connect_lines (bonds site0) (wp_len last) (length (coords last)))
     | [] => ret tt
     end
   else ret tt) ;;;
  emit (nl ++ "library " ++ ff inp ++ ".lib" ++ nl) ;;;
  emit ("ewald 10.0" ++ nl) ;;;
  emit ("maxcycle " ++ fmt_d 0 (steps inp) ++ nl) ;;;
  emit ("stepmx " ++ stepmx inp ++ nl) ;;;
  emit ("ftol 0.0001" ++ nl) ;;;
  emit ("gtol 0.002" ++ nl) ;;;
  emit ("gmax 0.01" ++ nl) ;;;
  match dump inp with
  | Some d => emit ("output cif " ++ d ++ nl)
  | None => ret tt
  end.

(** The attributes of a [GULP_OC] instance, and of [self.structure], that
    [read] reads or assigns.  There is no error attribute: [__init__]
    (lines 468-492) defines none. *)
Record ocstate := mkOC {
  version : option string;              (* self.version *)
  energy : option pyfloat;              (* self.structure.energy *)
  optimized : bool;
  cputime : pyfloat;
  stress : option (list pyfloat);
  iter : Z;
  positions : option (list (list pyfloat));
  species : option (list string);
  cell : option (list (list pyfloat));
  self_lattice : option lattice;        (* self.lattice *)
  struct_lattice : lattice;             (* self.structure.lattice *)
  group_ltype : string;                 (* self.structure.group.lattice_type *)
  mol_sizes : list nat;                 (* len(site.molecule.mol) per mol_site *)
  mol_coords : list (list (list pyfloat)) (* coordinates held by each mol_site *)
}.

Definition upd (f : ocstate -> ocstate) : St ocstate unit := modify f.

Definition with_version v o := mkOC (Some v) (energy o) (optimized o) (cputime o) (stress o)
  (iter o) (positions o) (species o) (cell o) (self_lattice o) (struct_lattice o) (group_ltype o)
  (mol_sizes o) (mol_coords o).
Definition with_energy e o := mkOC (version o) (Some e) (optimized o) (cputime o) (stress o)
  (iter o) (positions o) (species o) (cell o) (self_lattice o) (struct_lattice o) (group_ltype o)
  (mol_sizes o) (mol_coords o).
Definition with_optimized o := mkOC (version o) (energy o) true (cputime o) (stress o)
  (iter o) (positions o) (species o) (cell o) (self_lattice o) (struct_lattice o) (group_ltype o)
  (mol_sizes o) (mol_coords o).
Definition with_cputime t o := mkOC (version o) (energy o) (optimized o) t (stress o)
  (iter o) (positions o) (species o) (cell o) (self_lattice o) (struct_lattice o) (group_ltype o)
  (mol_sizes o) (mol_coords o).
Definition with_stress st o := mkOC (version o) (energy o) (optimized o) (cputime o) (Some st)
  (iter o) (positions o) (species o) (cell o) (self_lattice o) (struct_lattice o) (group_ltype o)
  (mol_sizes o) (mol_coords o).
Definition with_iter n o := mkOC (version o) (energy o) (optimized o) (cputime o) (stress o)
  n (positions o) (species o) (cell o) (self_lattice o) (struct_lattice o) (group_ltype o)
  (mol_sizes o) (mol_coords o).
Definition with_positions p sp o := mkOC (version o) (energy o) (optimized o) (cputime o)
  (stress o) (iter o) (Some p) (Some sp) (cell o) (self_lattice o) (struct_lattice o)
  (group_ltype o) (mol_sizes o) (mol_coords o).
Definition with_cell m o := mkOC (version o) (energy o) (optimized o) (cputime o) (stress o)
  (iter o) (positions o) (species o) (Some m) (self_lattice o) (struct_lattice o) (group_ltype o)
  (mol_sizes o) (mol_coords o).
Definition with_lattice l o := mkOC (version o) (energy o) (optimized o) (cputime o)
  (stress o) (iter o) (positions o) (species o) (cell o) (Some l) l (group_ltype o)
  (mol_sizes o) (mol_coords o).
Definition with_mol_coords mc o := mkOC (version o) (energy o) (optimized o) (cputime o)
  (stress o) (iter o) (positions o) (species o) (cell o) (self_lattice o) (struct_lattice o)
  (group_ltype o) (mol_sizes o) mc.

(** The body of the [for i, line in enumerate(lines)] loop (lines 610-664). *)
Definition read_line (lines : list string) (i : nat) (line : string) : St ocstate unit :=
  (if Nat.eqb i 7 then upd (with_version line) else ret tt) ;;;
  if contains line "Total lattice energy" then
    match Re.match_energy "Total lattice energy" line with
    | Some grp => e <- lift (float grp) ;; upd (with_energy e)
    | None => ret tt
    end
  else if contains line "Job Finished" then upd with_optimized
  else if contains line "Total CPU time" then
    t <- lift (index_last (split line)) ;; x <- lift (float t) ;; upd (with_cputime x)
  else if contains line "Final stress tensor components" then
    st <- lift (GULP.stress_block lines i) ;; upd (with_stress st)
  else if contains line " Cycle: " then
    t <- lift (index (split line) 1) ;; n <- lift (int t) ;; upd (with_iter n)
  else if contains line "Final asymmetric unit coord"
          || contains line "Final fractional coordinates of atoms" then
    rows <- lift (GULP.coord_rows (skipn (i + 6) lines)) ;;
    arr <- lift (np_array (fst rows)) ;;
    upd (with_positions arr (snd rows))
  else if contains line "Final Cartesian lattice vectors" then
    m <- lift (GULP.cart_block lines i) ;; upd (with_cell m)
  else ret tt.

Fixpoint scan (lines : list string) (i : nat) (rest : list string) : St ocstate unit :=
  match rest with
  | [] => ret tt
  | l :: rest' => read_line lines i l ;;; scan lines (S i) rest'
  end.

(** [mol_sites[k]] takes the coordinates [c]; other sites are untouched. *)
Fixpoint set_nth {A} (k : nat) (c : A) (xs : list A) : list A :=
  match k, xs with
  | _, [] => []
  | O, _ :: xs' => c :: xs'
  | S k', x :: xs' => x :: set_nth k' c xs'
  end.

Definition set_site_coords (k : nat) (c : list (list pyfloat)) (o : ocstate) : ocstate :=
  with_mol_coords (set_nth k c (mol_coords o)) o.

Section Read.
(** [Lattice.matrix] of a pyxtal lattice (computed in [pyxtal.lattice]). *)
Variable lattice_matrix : lattice -> list (list pyfloat).
(** [mol_site.update(coords, lattice)] (pyxtal code): the coordinates the site
    holds afterwards (it may wrap them), or the exception it raises. *)
Variable site_update : list (list pyfloat) -> lattice -> pyres (list (list pyfloat)).
(** [self.structure.optimize_lattice()] (pyxtal code): the state it leaves,
    whether it returns or raises (the bare [except] swallows a raise). *)
Variable optimize_lattice : ocstate -> ocstate.

(** Lines 665-670: [self.cell] falls back to [self.structure.lattice.matrix];
    [self.lattice] and [self.structure.lattice] become the same new lattice. *)
Definition assign_lattice (o : ocstate) : ocstate :=
  let m := match cell o with Some m => m | None => lattice_matrix (struct_lattice o) end in
  with_lattice (FromMatrix m (group_ltype o)) (with_cell m o).

(** Lines 676-679, the [for site in self.structure.mol_sites] loop; [sizes]
    are the [len(site.molecule.mol)] of the sites still to visit and [k] the
    index of the current one.  With [self.positions] still [None], the
    slicing raises [TypeError]. *)
Fixpoint update_sites (lat : lattice) (count : nat) (sizes : list nat) (k : nat)
  : St ocstate unit :=
  match sizes with
  | [] => ret tt
  | n :: sizes' =>
      o <- get ;;
      coords <- lift (match positions o with
                      | Some pos => POk (slice count (count + n) pos)
                      | None => PErr (TypeError "'NoneType' object is not subscriptable")
                      end) ;;
      c <- lift (site_update coords lat) ;;
      modify (set_site_coords k c) ;;;
      update_sites lat (count + n) sizes' (S k)
  end.

(** Lines 665-683, after the loop.  Any exception of the [try] block
    (lines 675-680) is swallowed: the state is the one reached at the raise. *)
Definition finish (o : ocstate) : ocstate :=
  let o1 := assign_lattice o in
  if optimized o1 then
    match update_sites (struct_lattice o1) 0 (mol_sizes o1) 0 o1 with
    | Done o2 _ => optimize_lattice o2
    | Raised o2 _ => o2
    end
  else o1.

(** [GULP_OC.read]: no [try] around the loop, so a scan exception leaves
    [read] with the state reached at the raise. *)
Definition read (lines : list string) : St ocstate unit :=
  scan lines 0 lines ;;; modify finish.
End Read.

(** Observable steps of [run]. *)
Inductive event :=
| Execute (deck : string)   (* self.execute(): the gulp process is started on the deck *)
| Clean.

Record run_state := mkRun { deck : string; events : list event; oc : ocstate }.

Definition on_deck {A} (m : St string A) : St run_state A :=
  zoom deck (fun d r => mkRun d (events r) (oc r)) m.
Definition on_oc {A} (m : St ocstate A) : St run_state A :=
  zoom oc (fun o r => mkRun (deck r) (events r) o) m.
Definition log_event (ev : event) : St run_state unit :=
  modify (fun r => mkRun (deck r) (events r ++ [ev]) (oc r)).

(** [GULP_OC.run] (lines 494-507).  The external process is a function
    from the deck to the log lines it leaves. *)
Definition run (set_order : list string -> list string)
    (lattice_matrix : lattice -> list (list pyfloat))
    (site_update : list (list pyfloat) -> lattice -> pyres (list (list pyfloat)))
    (optimize_lattice : ocstate -> ocstate)
    (process : string -> list string) (inp : oc_input) (clean pause : bool)
  : St run_state unit :=
  on_deck (modify (fun _ => "") ;;; write set_order inp) ;;;
  if pause then ret tt
  else
    r <- get ;;
    log_event (Execute (deck r)) ;;;
    on_oc (read lattice_matrix site_update optimize_lattice (process (deck r))) ;;;
    (if clean then log_event Clean else ret tt).

End GULP_OC.

(* ------------------------------------------------------------------ *)
(** ** [single_optimize] and [optimize] *)

Module Drivers.
Import Py StExc.

(** The parameters of [single_optimize] (lines 686-697). *)
Definition single_optimize_params : list string :=
  ["struc"; "ff"; "steps"; "pstress"; "opt"; "path"; "label"; "clean"; "symmetry"; "labels"].

(** Python's binding of keyword arguments to the parameters of a function
    without [**kwargs]: an unknown keyword, or a parameter given twice,
    raises [TypeError] before the body runs. *)
Fixpoint bind_keywords (fname : string) (params bound kws : list string) : pyres unit :=
  match kws with
  | [] => POk tt
  | k :: kws' =>
      if negb (existsb (String.eqb k) params) then
        PErr (TypeError (fname ++ "() got an unexpected keyword argument '" ++ k ++ "'"))
      else if existsb (String.eqb k) bound then
        PErr (TypeError (fname ++ "() got multiple values for argument '" ++ k ++ "'"))
      else bind_keywords fname params (k :: bound) kws'
  end.

(** A call [fname(<npos positional>, k1=..., k2=...)]. *)
Definition bind_call (fname : string) (params : list string) (npos : nat) (kws : list string)
  : pyres unit :=
  if Nat.ltb (length params) npos then PErr (TypeError (fname ++ "() takes too many positional arguments"))
  else bind_keywords fname params (firstn npos params) kws.

(** [abs(energy) < 1e-8]; [abs(None)] raises [TypeError]. *)
Definition near_zero (e : option pyfloat) : pyres bool :=
  match e with
  | None => PErr (TypeError "bad operand type for abs(): 'NoneType'")
  | Some (PFin q) => POk (negb (Qle_bool (1 # 100000000) (Qabs q)))
  | Some _ => POk false
  end.

Section Optimize.
(** The structure type, the result of one [single_optimize] stage on a
    structure and a mode (the body of lines 698-718, which runs GULP):
    [(struc, energy, time, error)], and
    [struc.lattice.set_matrix(matrix * 0.8)]. *)
Variable S : Type.
Variable stage : option S -> string -> option S * option pyfloat * Q * bool.
Variable rescale : S -> S.

(** The [for opt in optimizations] loop (lines 739-758).  The state is the
    list of modes whose stage body was entered.  [energy] is [None] while
    the local is unbound. *)
Fixpoint optimize_loop (adjust : bool) (opts : list string) (struc : option S)
    (energy : option (option pyfloat)) (time_total : Q)
  : St (list string) (option S * option pyfloat * Q * bool) :=
  match opts with
  | [] =>
      match energy with
      | None => lift (PErr UnboundLocalError)
      | Some e => ret (struc, e, time_total, false)
      end
  | o :: opts' =>
      lift (bind_call "single_optimize" single_optimize_params 2
              ["pstress"; "opt"; "exe"; "path"; "label"; "clean"]) ;;;
      modify (fun tr => (tr ++ [o])%list) ;;;
      let '(s', e, t, err) := stage struc o in
      let time_total' := (time_total + t)%Q in
      if err then ret (None, None, 0%Q, true)
      else
        z <- (if adjust then lift (near_zero e) else ret false) ;;
        if z then
          match s' with
          | Some st => optimize_loop adjust opts' (Some (rescale st)) (Some e) time_total'
          | None => lift (PErr AttributeError)
          end
        else optimize_loop adjust opts' s' (Some e) time_total'
  end.

(** [optimize(struc, ff, optimizations, ..., adjust)]. *)
Definition optimize (struc : S) (optimizations : option (list string)) (adjust : bool)
  : St (list string) (option S * option pyfloat * Q * bool) :=
  let opts := match optimizations with None => ["conp"; "conp"] | Some l => l end in
  optimize_loop adjust opts (Some struc) None 0%Q.
End Optimize.

End Drivers.

(* ------------------------------------------------------------------ *)
(** ** The symbols visited by [GULP_OC.write] *)

Module Symbols.
Import Py GULP_OC.

(** The symbols [symbol] takes in the inner loop of one site, for the
    atoms [j, j+1, ...] of [cs]. *)
Fixpoint atom_syms (ms : mol_site) (labels : list string) (cs : list (Q * Q * Q)) (j : nat)
  : pyres (list string) :=
  match cs with
  | [] => POk []
  | _ :: cs' =>
      s <-? atom_sym ms labels j ;; rest <-? atom_syms ms labels cs' (S j) ;; POk (s :: rest)
  end.

(** The symbols of all sites, in the order of the two loops. *)
Fixpoint all_syms (inp : oc_input) (sites : list mol_site) : pyres (list string) :=
  match sites with
  | [] => POk []
  | ms :: sites' =>
      lc <-? site_labels inp ms ;;
      s <-? atom_syms ms (fst lc) (coords ms) 0 ;;
      rest <-? all_syms inp sites' ;;
      POk (s ++ rest)%list
  end.

(** [charges[j]] exists for every atom of the site. *)
Definition charges_ok (inp : oc_input) (ms : mol_site) : bool :=
  match site_labels inp ms with
  | POk (_, c) => Nat.leb (length (coords ms)) (length c)
  | PErr _ => true
  end.

(** [symbol not in at_types]. *)
Definition unregistered (sym : string) : bool :=
  match classify sym with None => true | Some _ => false end.

(** Distinct keys, tested by comparing every pair. *)
Fixpoint nodupb (xs : list string) : bool :=
  match xs with
  | [] => true
  | x :: xs' => negb (existsb (String.eqb x) xs') && nodupb xs'
  end.

End Symbols.

(* ------------------------------------------------------------------ *)
(** ** Concrete inputs *)

Module Samples.
Import Py StExc Pyxtal.

(** A 5 x 5 x 5 cubic cell. *)
Definition cube5 : list (list pyfloat) :=
  [[PFin 5; PFin 0; PFin 0]; [PFin 0; PFin 5; PFin 0]; [PFin 0; PFin 0; PFin 5]].

(** A [GULP] instance right after [__init__] on an ASE [Atoms] object with one
    site (no pyxtal object, no symmetry, no pressure). *)
Definition gulp0 : GULP.gulp :=
  GULP.mkGulp None false None [[PFin 0.0; PFin 0.0; PFin 0.0]] (FromMatrix cube5 "triclinic")
              0 None None None None false (PFin 0) false.

Definition cart_lines : list string :=
  ["  Final Cartesian lattice vectors (Angstroms) :"; "";
   "        5.000000    0.000000    0.000000";
   "        0.000000    5.000000    0.000000";
   "        0.000000    0.000000    5.000000"].

Definition para_lines : list string :=
  ["  Non-primitive lattice parameters :"; "";
   "  a =     5.000000    b =     5.000000    c =     5.000000";
   "  alpha=  90.000000    beta=  90.000000    gamma=  90.000000"].

(** A log with an energy line and a lattice block but no "Job Finished". *)
Definition log_no_marker : list string :=
  ["  Total lattice energy       =         -12.34567890 eV"] ++ cart_lines.

(** A log whose energy field reads [inf]. *)
Definition log_inf : list string :=
  ["  Total lattice energy       =                  inf eV"] ++ cart_lines
  ++ ["  Job Finished at 10:00.00 1st January 2024"].

(** A log with both lattice blocks. *)
Definition log_both : list string :=
  ["  Total lattice energy       =         -12.34567890 eV"] ++ para_lines ++ cart_lines
  ++ ["  Job Finished at 10:00.00 1st January 2024"].

(** A log cut inside the "Final fractional coordinates of atoms" block. *)
Definition log_truncated : list string :=
  ["  Total lattice energy       =         -12.34567890 eV";
   "  Final fractional coordinates of atoms :"; ""; "----"; "   No.  Atomic        x           y          z          Radius";
   "        Label       (Frac)      (Frac)     (Frac)"; "----";
   "     1  C     c     0.000000    0.000000    0.000000    0.000000"].

(** A log without a "Final Cartesian lattice vectors" block. *)
Definition log_no_cell : list string :=
  ["  Total lattice energy       =         -12.34567890 eV";
   "  Job Finished at 10:00.00 1st January 2024"].

(** A [GULP_OC] instance after [__init__]. *)
Definition oc0 : GULP_OC.ocstate :=
  GULP_OC.mkOC None None false (PFin 0) None 0 None None None None
               (FromMatrix cube5 "cubic") "cubic" [1%nat] [[[PFin 0.0; PFin 0.0; PFin 0.0]]].

(** [Lattice.matrix] on the sample lattices. *)
Definition matrix_of (l : lattice) : list (list pyfloat) :=
  match l with FromMatrix m _ => m | FromPara _ _ _ _ _ _ _ => cube5 end.

(** A [mol_site.update] that keeps the coordinates as given. *)
Definition store_update (c : list (list pyfloat)) (_ : lattice) : pyres (list (list pyfloat)) :=
  POk c.

(** An [optimize_lattice] that changes nothing. *)
Definition keep_opt (o : GULP_OC.ocstate) : GULP_OC.ocstate := o.

(** Single-point deck input: cubic 5 A cell, one C at the origin, defaults. *)
Definition w_single : GULP.winput :=
  GULP.mkW (5, 5, 5, 90, 90, 90)%Q "single" false None [(0, 0, 0)%Q] ["C"]
           "reaxff" None 1000 None None.

(** Shell-model deck input from an ASE [Atoms] object (no pyxtal object). *)
Definition w_catlow : GULP.winput :=
  GULP.mkW (4, 4, 4, 90, 90, 90)%Q "conp" false None [(0, 0, 0)%Q; (1 # 2, 1 # 2, 1 # 2)%Q]
           ["O"; "Mg"] "catlow" None 1000 None None.

(** The same structure through a pyxtal object with symmetry imposed. *)
Definition w_catlow_sym : GULP.winput :=
  GULP.mkW (4, 4, 4, 90, 90, 90)%Q "conp" true
           (Some ([("O", (0, 0, 0)%Q); ("Mg", (1 # 2, 1 # 2, 1 # 2)%Q)], 225%Z))
           [(0, 0, 0)%Q; (1 # 2, 1 # 2, 1 # 2)%Q] ["O"; "Mg"] "catlow" None 1000 None None.


(** Python's set order for one hash seed, and another admissible one. *)
Definition order1 (xs : list string) : list string := nodup string_dec xs.

(** A molecular site whose second atom is an iodine labelled ["i"]. *)
Definition ms_iodine : GULP_OC.mol_site :=
  GULP_OC.mkMolSite [(0, 0, 0)%Q; (1 # 10, 0, 0)%Q] ["C"; "I"] ["c3"; "i"] [0; 0]%Q "mol"
                    [] 1 [].

Definition oc_input_iodine : GULP_OC.oc_input :=
  GULP_OC.mkOCInput (5, 5, 5)%Q (90, 90, 90)%Q "cubic" "conp" "gaff2" false 1000 "0.001"
                    None None [ms_iodine].

Definition run0 : GULP_OC.run_state := GULP_OC.mkRun "" [] oc0.



End Samples.

(* ------------------------------------------------------------------ *)
(** ** [GULP.__init__], [run], [execute], [clean], [to_pyxtal] and [single_optimize] *)

Module GULPRun.
Import Py StExc Pyxtal GULP.

(** The attributes [read] depends on that no line of the log changes:
    [symmetry], [pstress] and the space-group symbol of [self.pyxtal]. *)
Definition frame (g' g : gulp) : Prop :=
  g_symmetry g' = g_symmetry g /\ g_pstress g' = g_pstress g /\
  option_map group_symbol (g_pyxtal g') = option_map group_symbol (g_pyxtal g).

(** [GULP.__init__] (lines 114-170) on a pyxtal object [px] (or on ASE
    [Atoms], [px = None]): [lat] is [Lattice.from_matrix(struc.cell)] and
    [frac] is [struc.get_scaled_positions()] of the ASE object. *)
Definition init (px : option pyxtal) (lat : lattice) (frac : list (list pyfloat))
    (symmetry : bool) (pstress : option pyfloat) : gulp :=
  mkGulp px symmetry pstress frac lat 0 None None None None false (PFin 0) false.

(** The working folder, as the names of the regular files in it
    (subdirectories are not modelled). *)
Definition folder := list string.

Definition has_file (p : string) (fs : folder) : bool := existsb (String.eqb p) fs.
Definition drop_file (p : string) (fs : folder) : folder :=
  filter (fun q => negb (String.eqb q p)) fs.
(** [open(p, "w")] or a shell redirection [> p]: [p] exists afterwards. *)
Definition add_file (p : string) (fs : folder) : folder := p :: drop_file p fs.

Inductive os_error :=
| FileNotFoundError (path : string)
| PyError (e : exn).

Inductive result (S A : Type) :=
| Ok (s : S) (a : A)
| Err (s : S) (e : os_error).
Arguments Ok {S A} s a.
Arguments Err {S A} s e.

(** [os.remove(p)]. *)
Definition os_remove (p : string) (fs : folder) : result folder unit :=
  if has_file p fs then Ok (drop_file p fs) tt else Err fs (FileNotFoundError p).

(** A character the shell takes literally inside a word: a letter, a digit,
    or one of [.], [_] and [-]. *)
Definition plain_char (c : ascii) : bool :=
  let n := nat_of_ascii c in
  ((48 <=? n)%nat && (n <=? 57)%nat) || ((65 <=? n)%nat && (n <=? 90)%nat) ||
  ((97 <=? n)%nat && (n <=? 122)%nat) || (n =? 46)%nat || (n =? 95)%nat || (n =? 45)%nat.

(** A file name that reaches [mv] unchanged as one operand naming a file of
    the folder: non-empty, not starting with [-] (which [mv] takes for an
    option), and made of plain characters only (no white space, quotes,
    globs, [$], [;], [/] or other shell syntax). *)
Definition word (p : string) : bool :=
  match p with
  | EmptyString => false
  | String c _ => negb (Ascii.eqb c "-") && forallb plain_char (list_ascii_of_string p)
  end.

(** [self.input], [self.output], [self.dump]. *)
Record files := mkFiles { input : string; output : string; dump : option string }.

Section Shell.
(** [os.system(cmd)] on a command line this model does not interpret (an
    operand with shell syntax, for instance): its effect on the folder. *)
Variable shell_other : string -> folder -> folder.

(** [os.system("mv " + a + " " + b)]: the shell splits the command line
    into words at white space; when the two operands are [word]s, [mv] gets
    them unchanged and renames an existing file, and a failure (a missing
    file, a file moved onto itself) is ignored by [os.system]; any other
    command line acts through [shell_other]. *)
Definition os_system_mv (a b : string) (fs : folder) : folder :=
  let cmd := "mv " ++ a ++ " " ++ b in
  match split cmd with
  | [_; x; y] =>
      if word x && word y then
        if has_file x fs && negb (String.eqb x y) then add_file y (drop_file x fs) else fs
      else shell_other cmd fs
  | _ => shell_other cmd fs
  end.

(** [GULP.clean] (lines 209-217). *)
Definition clean (nm : files) (error : bool) (fs : folder) : result folder unit :=
  let r :=
    if error then
      Ok (os_system_mv (output nm) (output nm ++ "_error")
            (os_system_mv (input nm) (input nm ++ "_error") fs)) tt
    else
      match os_remove (input nm) fs with
      | Ok fs1 _ => os_remove (output nm) fs1
      | Err fs1 e => Err fs1 e
      end in
  match r, dump nm with
  | Ok fs2 _, Some d => os_remove d fs2
  | _, _ => r
  end.

(** [GULP.execute] (lines 193-207): the shell opens [self.output] for
    writing before it starts [self.exe]; the process then leaves the files
    it creates (the dump file, for instance).  A failing or timed-out
    command is caught and only printed. *)
Definition execute (nm : files) (created : list string) (fs : folder) : folder :=
  fold_right add_file (add_file (output nm) fs) created.

(** The state [run] works on: the files of [self.folder], the current
    directory and the calculator. *)
Record run_state := mkRunState { files_in : folder; cwd : string; calc : gulp }.

(** [GULP.run] (lines 180-191).  [w] holds what [write] reads from
    [self]; the external program maps the deck to the lines of its log and
    the files it creates. *)
Definition run (set_order : list string -> list string) (w : winput) (nm : files)
    (folder_name : string) (process : string -> list string * list string)
    (clean_flag : bool) (st : run_state) : result run_state unit :=
  let deck := write set_order w in
  let fs1 := add_file (input nm) (files_in st) in
  let '(log, created) := process deck in
  let fs2 := execute nm created fs1 in
  let g1 := read log (calc st) in
  if clean_flag then
    match clean nm (g_error g1) fs2 with
    | Ok fs3 _ => Ok (mkRunState fs3 (cwd st) g1) tt
    | Err fs3 e => Err (mkRunState fs3 folder_name g1) e   (* os.chdir(cwd) is skipped *)
    end
  else Ok (mkRunState fs2 (cwd st) g1) tt.
End Shell.

Section SeedLoop.
(** [struc.from_seed(ase_atoms, tol=tol)] on a fresh [pyxtal()]: [inl] the
    seeded object, [inr] the object as the raising call left it. *)
Variable from_seed : Q -> pyxtal + pyxtal.

(** The [for tol in [...]] loop of [GULP.to_pyxtal]; [struc] is [None]
    while the local is unbound. *)
Fixpoint seed_loop (tols : list Q) (struc : option pyxtal) : pyres pyxtal :=
  match tols with
  | [] => match struc with Some s => POk s | None => PErr UnboundLocalError end
  | t :: tols' =>
      match from_seed t with
      | inl s => POk s                       (* break *)
      | inr s => seed_loop tols' (Some s)    (* except: pass *)
      end
  end.
End SeedLoop.

Section ToPyxtal.
(** ASE [Atoms] objects. *)
Variable atoms : Type.
(** [Atoms(symbols, scaled_positions=..., cell=...)] (ASE code): the object,
    or the exception of the constructor (ASE raises [ValueError] when the
    positions are not one row of three per symbol). *)
Variable ase_atoms : list string -> list (list pyfloat) -> list (list pyfloat) -> pyres atoms.
(** [Lattice.matrix] (pyxtal code). *)
Variable lattice_matrix : lattice -> list (list pyfloat).
(** [struc.from_seed(ase_atoms, tol=tol)] as above, on the [Atoms] given. *)
Variable from_seed : atoms -> Q -> pyxtal + pyxtal.

(** [GULP.to_ase] (lines 219-220); [sites] is [self.sites]. *)
Definition to_ase (sites : list string) (g : gulp) : pyres atoms :=
  ase_atoms sites (g_frac_coords g) (lattice_matrix (g_lattice g)).

(** [GULP.to_pyxtal] (lines 227-238): [self.to_ase()] is called before the
    loop, outside its [try]. *)
Definition to_pyxtal (sites : list string) (g : gulp) : pyres pyxtal :=
  a <-? to_ase sites g ;;
  seed_loop (from_seed a) [1 # 100; 1 # 1000; 1 # 10000; 1 # 100000]%Q None.
End ToPyxtal.
Arguments to_ase {atoms}.
Arguments to_pyxtal {atoms}.

(** [single_optimize] (lines 686-718): [GULP(struc, ...)] with
    [input = label + "gulp.in"], [output = label + "gulp.log"], no dump;
    [calc.run(clean=clean)]; then the result tuple.  [w] holds what [write]
    reads from [calc], its [w_sites] being [calc.sites]. *)
Definition single_optimize (shell_other : string -> folder -> folder)
    {atoms : Type}
    (ase_atoms : list string -> list (list pyfloat) -> list (list pyfloat) -> pyres atoms)
    (lattice_matrix : lattice -> list (list pyfloat))
    (from_seed : atoms -> Q -> pyxtal + pyxtal)
    (set_order : list string -> list string) (w : winput) (label path : string)
    (process : string -> list string * list string) (clean_flag : bool)
    (px : option pyxtal) (lat : lattice) (frac : list (list pyfloat))
    (symmetry : bool) (pstress : option pyfloat) (st : run_state)
  : result run_state (option pyxtal * option pyfloat * pyfloat * bool) :=
  let calc0 := init px lat frac symmetry pstress in
  let nm := mkFiles (label ++ "gulp.in") (label ++ "gulp.log") None in
  match run shell_other set_order w nm path process clean_flag
            (mkRunState (files_in st) (cwd st) calc0) with
  | Err st' e => Err st' e
  | Ok st' _ =>
      let c := calc st' in
      if g_error c then Ok st' (None, None, PFin 0, true)
      else
        match g_pyxtal c with
        | Some p => Ok st' (Some p, g_energy_per_atom c, g_cputime c, g_error c)
        | None =>
            match to_pyxtal ase_atoms lattice_matrix from_seed (w_sites w) c with
            | POk p => Ok st' (Some p, g_energy_per_atom c, g_cputime c, g_error c)
            | PErr e => Err st' (PyError e)
            end
        end
  end.

End GULPRun.

(* ------------------------------------------------------------------ *)
(** ** More concrete inputs *)

Module MoreSamples.
Import Py StExc Pyxtal GULP GULPRun Samples.

(** A log with the initial and the final energy of an optimisation. *)
Definition log_two_energies : list string :=
  ["  Total lattice energy       =         -10.00000000 eV";
   "  Total lattice energy       =         -12.50000000 eV"] ++ cart_lines
  ++ ["  Job Finished at 10:00.00 1st January 2024"].

(** A calculator at 1 GPa. *)
Definition gulp_pressure : gulp :=
  mkGulp None false (Some (PFin 1)) [[PFin 0.0; PFin 0.0; PFin 0.0]] (FromMatrix cube5 "triclinic")
         0 None None None None false (PFin 0) false.

(** A calculator built on ASE [Atoms] with [symmetry=True]. *)
Definition gulp_sym_atoms : gulp :=
  mkGulp None true None [[PFin 0.0; PFin 0.0; PFin 0.0]] (FromMatrix cube5 "triclinic")
         0 None None None None false (PFin 0) false.

Definition files0 : files := mkFiles "_gulp.in" "_gulp.log" None.
Definition files_dump : files := mkFiles "_gulp.in" "_gulp.log" (Some "dump.cif").

(** An external program that writes [log] and nothing else. *)
Definition proc (log : list string) (deck : string) : list string * list string := (log, []).

Definition start : run_state := mkRunState [] "/home/user" gulp0.

(** [from_seed] failing at 1e-2 and succeeding at 1e-3. *)
Definition px_a : pyxtal := mkPyxtal "P1" "triclinic" [] (FromMatrix cube5 "triclinic").
Definition px_b : pyxtal := mkPyxtal "Pm-3m" "cubic" [] (FromMatrix cube5 "cubic").
Definition seed_second (t : Q) : pyxtal + pyxtal :=
  if Qeq_bool t (1 # 100) then inr px_a else inl px_b.

(** A shell whose other commands change no file. *)
Definition no_shell (cmd : string) (fs : folder) : folder := fs.

(** An [Atoms] constructor that checks for one row of three positions per
    symbol and raises [ValueError] otherwise, as ASE does. *)
Definition ase_check (syms : list string) (pos cell : list (list pyfloat))
  : pyres (list string * list (list pyfloat)) :=
  if Nat.eqb (length pos) (length syms) && forallb (fun r => Nat.eqb (length r) 3) pos
  then POk (syms, pos) else PErr ValueError.

(** [seed_second] on any [Atoms]. *)
Definition seed_atoms (a : list string * list (list pyfloat)) (t : Q) : pyxtal + pyxtal :=
  seed_second t.

(** A molecular-crystal input with no [mol_sites]. *)
Definition oc_input_empty : GULP_OC.oc_input :=
  GULP_OC.mkOCInput (5, 5, 5)%Q (90, 90, 90)%Q "cubic" "conp" "gaff2" false 1000 "0.001"
                    None None [].





End MoreSamples.

(* ================================================================== *)
(** * Facts about the embedding *)

Module Facts.
Import Py StExc.

Lemma pres_ret {S A} (P : S -> Prop) (a : A) : preserves P (ret a).
Proof. intros s Hs; exact Hs. Qed.

Lemma pres_get {S} (P : S -> Prop) : preserves P get.
Proof. intros s Hs; exact Hs. Qed.

Lemma pres_lift {S A} (P : S -> Prop) (r : pyres A) : preserves P (lift r).
Proof. intros s Hs; destruct r; exact Hs. Qed.

Lemma pres_modify {S} (P : S -> Prop) (f : S -> S) :
  (forall s, P s -> P (f s)) -> preserves P (modify f).
Proof. intros Hf s Hs; apply Hf, Hs. Qed.

Lemma pres_bind {S A B} (P : S -> Prop) (m : St S A) (k : A -> St S B) :
  preserves P m -> (forall a, preserves P (k a)) -> preserves P (bind m k).
Proof.
  intros Hm Hk s Hs; unfold bind.
  specialize (Hm s Hs); destruct (m s) as [s' a | s' e]; [apply Hk |]; exact Hm.
Qed.

Lemma pres_zoom {S T A} (P : S -> Prop) (getf : S -> T) (setf : T -> S -> S) (m : St T A) :
  (forall s t, P s -> P (setf t s)) -> preserves P (zoom getf setf m).
Proof.
  intros Hset s Hs; unfold zoom; destruct (m (getf s)); apply Hset, Hs.
Qed.

(** One step of a preservation proof, following the shape of the code. *)
Ltac pres_step :=
  match goal with
  | |- preserves _ (bind _ _) => apply pres_bind; [| intro]
  | |- preserves _ (ret _) => apply pres_ret
  | |- preserves _ get => apply pres_get
  | |- preserves _ (lift _) => apply pres_lift
  | |- preserves _ (modify _) => apply pres_modify; intros ?s ?Hs
  | |- preserves _ (if ?b then _ else _) => destruct b
  | |- preserves _ (match ?x with _ => _ end) => destruct x
  end.


End Facts.

Module GulpFacts.
Import Py StExc Pyxtal GULP Facts.

Lemma asym_sites_pres (P : rstate -> Prop) lines s k rem :
  (forall k xyz r, P r -> P (on_self (update_site k xyz) r)) ->
  preserves P (asym_sites lines s k rem).
Proof.
  intros Hup; revert k; induction rem as [| rem IH]; intros k; cbn [asym_sites].
  - apply pres_ret.
  - repeat (pres_step; try apply IH); apply Hup; assumption.
Qed.

(** The loop body never sets [self.error]. *)
Lemma read_line_keeps_error lines ltype i l :
  preserves (fun r => g_error (self r) = false) (read_line lines ltype i l).
Proof.
  unfold read_line; repeat pres_step; cbn in *; auto;
    apply asym_sites_pres; intros k xyz r Hr; unfold on_self, update_site;
    destruct (g_pyxtal (self r)); exact Hr.
Qed.

(** Only a line containing "Job Finished" sets [self.optimized]. *)
Lemma read_line_keeps_not_optimized lines ltype i l :
  contains l "Job Finished" = false ->
  preserves (fun r => g_optimized (self r) = false) (read_line lines ltype i l).
Proof.
  intros Hjf; unfold read_line; rewrite Hjf; repeat pres_step; cbn in *; auto;
    apply asym_sites_pres; intros k xyz r Hr; unfold on_self, update_site;
    destruct (g_pyxtal (self r)); exact Hr.
Qed.

Lemma scan_pres (P : rstate -> Prop) lines ltype i rest :
  (forall j l, In l rest -> preserves P (read_line lines ltype j l)) ->
  preserves P (scan lines ltype i rest).
Proof.
  revert i; induction rest as [| l rest IH]; intros i Hl; cbn [scan].
  - apply pres_ret.
  - apply pres_bind; [apply Hl; left; reflexivity |].
    intros _; apply IH; intros j l' Hin; apply Hl; right; exact Hin.
Qed.


(** What [read] makes of the state left by the [try] block. *)
Lemma read_fields lines g :
  let r := read_try lines g in
  g_error (read lines g) = g_error (self r) || no_lattice r || energy_bad (self r) /\
  g_energy (read lines g) =
    (if no_lattice r || energy_bad (self r) then None else g_energy (self r)) /\
  g_optimized (read lines g) = g_optimized (self r) /\
  g_lattice (read lines g) =
    match lattice_para r, lattice_vector r with
    | Some lp, _ => lp
    | None, Some lv => lv
    | None, None => g_lattice (self r)
    end /\
  (forall px, g_pyxtal (read lines g) = Some px -> px_lattice px = g_lattice (read lines g)).
Proof.
  cbv zeta; unfold read, no_lattice, energy_bad.
  destruct (read_try lines g) as [x lp lv]; cbn [lattice_para lattice_vector self].
  destruct lp as [lp |]; [| destruct lv as [lv |]];
    destruct x as [px sym ps fc lat it en epa st fo op ct er]; cbn;
    destruct px as [px |]; cbn;
    try (destruct en as [e |]; cbn; [destruct (isnan e) |]);
    cbn; repeat split; rewrite ?orb_true_r, ?orb_false_r; try reflexivity;
    intros px' Hpx; inversion Hpx; reflexivity.
Qed.

End GulpFacts.

Module OCFacts.
Import Py StExc Pyxtal GULP_OC Symbols Facts.

Lemma index_lt {A} (xs : list A) (n : nat) :
  (n < length xs)%nat -> exists a, index xs n = POk a.
Proof.
  intros H; unfold index; destruct (nth_error xs n) eqn:E; [eauto |].
  apply nth_error_None in E; lia.
Qed.

(** The inner loop finishes when every symbol of the site is registered. *)
Lemma write_atoms_ok ms labels charges cs j syms d :
  atom_syms ms labels cs j = POk syms ->
  (length cs + j <= length charges)%nat ->
  existsb unregistered syms = false ->
  exists d', write_atoms ms labels charges cs j d = Done d' syms.
Proof.
  revert j syms d; induction cs as [| [[x y] z] cs IH]; intros j syms d Hs Hlen Hex.
  - cbn in Hs; inversion Hs; subst; exists d; reflexivity.
  - cbn [atom_syms] in Hs; unfold pbind in Hs.
    destruct (atom_sym ms labels j) as [s |] eqn:Ha; [| discriminate].
    destruct (atom_syms ms labels cs (S j)) as [rest |] eqn:Hr; [| discriminate].
    inversion Hs; subst; cbn [existsb] in Hex; apply orb_false_iff in Hex as [Hu Hex].
    unfold unregistered in Hu; destruct (classify s) as [code |] eqn:Hc; [| discriminate].
    destruct (index_lt charges j) as [ch Hch]; [cbn [length] in Hlen; lia |].
    destruct (IH (S j) rest
                (d ++ (fmt_s 4 code ++ " " ++ fmt_f 12 6 x ++ " " ++ fmt_f 12 6 y ++ " "
                       ++ fmt_f 12 6 z ++ " core " ++ fmt_f 12 6 ch ++ String "010" "")))
      as [d' Hd']; [exact Hr | cbn [length] in Hlen; lia | exact Hex |].
    exists d'; cbn [write_atoms]; unfold bind, lift, emit, modify, ret.
    rewrite Ha, Hc, Hch, Hd'; reflexivity.
Qed.

(** The inner loop raises [KeyError] at an unregistered symbol. *)
Lemma write_atoms_fail ms labels charges cs j syms d :
  atom_syms ms labels cs j = POk syms ->
  (length cs + j <= length charges)%nat ->
  existsb unregistered syms = true ->
  exists sym d', unregistered sym = true /\ In sym syms /\
    write_atoms ms labels charges cs j d = Raised d' (KeyError (unsupported_msg sym)).
Proof.
  revert j syms d; induction cs as [| [[x y] z] cs IH]; intros j syms d Hs Hlen Hex.
  - cbn in Hs; inversion Hs; subst; discriminate.
  - cbn [atom_syms] in Hs; unfold pbind in Hs.
    destruct (atom_sym ms labels j) as [s |] eqn:Ha; [| discriminate].
    destruct (atom_syms ms labels cs (S j)) as [rest |] eqn:Hr; [| discriminate].
    inversion Hs; subst; cbn [existsb] in Hex.
    destruct (classify s) as [code |] eqn:Hc.
    + assert (Hu : unregistered s = false) by (unfold unregistered; rewrite Hc; reflexivity).
      rewrite Hu in Hex; cbn in Hex.
      destruct (index_lt charges j) as [ch Hch]; [cbn [length] in Hlen; lia |].
      destruct (IH (S j) rest
                  (d ++ (fmt_s 4 code ++ " " ++ fmt_f 12 6 x ++ " " ++ fmt_f 12 6 y ++ " "
                         ++ fmt_f 12 6 z ++ " core " ++ fmt_f 12 6 ch ++ String "010" "")))
        as (sym & d' & Hsu & Hin & Hd'); [exact Hr | cbn [length] in Hlen; lia | exact Hex |].
      exists sym, d'; split; [exact Hsu | split; [right; exact Hin |]].
      cbn [write_atoms]; unfold bind, lift, emit, modify, ret.
      rewrite Ha, Hc, Hch, Hd'; reflexivity.
    + exists s, d; split; [unfold unregistered; rewrite Hc; reflexivity | split; [left; reflexivity |]].
      cbn [write_atoms]; unfold bind, lift; rewrite Ha, Hc; reflexivity.
Qed.

(** The outer loop raises [KeyError] at an unregistered symbol. *)
Lemma write_sites_fail inp sites syms d :
  all_syms inp sites = POk syms ->
  forallb (charges_ok inp) sites = true ->
  existsb unregistered syms = true ->
  exists sym d', unregistered sym = true /\ In sym syms /\
    write_sites inp sites d = Raised d' (KeyError (unsupported_msg sym)).
Proof.
  revert syms d; induction sites as [| ms sites IH]; intros syms d Hs Hc Hex.
  - cbn in Hs; inversion Hs; subst; discriminate.
  - cbn [all_syms] in Hs; unfold pbind in Hs; cbn [forallb] in Hc.
    apply andb_true_iff in Hc as [Hc1 Hc]; unfold charges_ok in Hc1.
    destruct (site_labels inp ms) as [[l c] |] eqn:Hl; [| discriminate]; cbn [fst snd] in Hs.
    destruct (atom_syms ms l (coords ms) 0) as [s |] eqn:Ha; [| discriminate].
    destruct (all_syms inp sites) as [rest |] eqn:Hr; [| discriminate].
    inversion Hs; subst; rewrite existsb_app in Hex.
    apply Nat.leb_le in Hc1.
    destruct (existsb unregistered s) eqn:Hs1.
    + destruct (write_atoms_fail ms l c (coords ms) 0 s d Ha ltac:(lia) Hs1)
        as (sym & d' & Hsu & Hin & Hw).
      exists sym, d'; split; [exact Hsu | split; [apply in_or_app; left; exact Hin |]].
      cbn [write_sites]; unfold bind, lift; rewrite Hl; cbn [fst snd]; rewrite Hw; reflexivity.
    + cbn in Hex.
      destruct (write_atoms_ok ms l c (coords ms) 0 s d Ha ltac:(lia) Hs1) as [d1 Hw].
      destruct (IH rest d1 eq_refl Hc Hex) as (sym & d' & Hsu & Hin & Hw').
      exists sym, d'; split; [exact Hsu | split; [apply in_or_app; right; exact Hin |]].
      cbn [write_sites]; unfold bind, lift; rewrite Hl; cbn [fst snd]; rewrite Hw.
      rewrite Hw'; reflexivity.
Qed.

(** [write] raises [KeyError] at an unregistered symbol. *)
Lemma write_fail set_order inp syms d :
  all_syms inp (mol_sites inp) = POk syms ->
  forallb (charges_ok inp) (mol_sites inp) = true ->
  existsb unregistered syms = true ->
  exists sym d', unregistered sym = true /\ In sym syms /\
    write set_order inp d = Raised d' (KeyError (unsupported_msg sym)).
Proof.
  intros Hs Hc Hex; unfold write.
  destruct (lat_abc inp) as [[a b] c]; destruct (lat_angles inp) as [[al be] ga].
  unfold bind at 1 2 3 4 5, emit, modify.
  match goal with
  | |- context [write_sites ?i ?ss ?dd] =>
      destruct (write_sites_fail i ss syms dd Hs Hc Hex) as (sym & d' & Hsu & Hin & Hw)
  end.
  exists sym, d'; split; [exact Hsu | split; [exact Hin |]].
  unfold bind; rewrite Hw; reflexivity.
Qed.

(** [run] stops at the raise of [write]: no [Execute] event is logged. *)
Lemma run_write_fail set_order lm su ol process inp clean pause rs sym d' :
  write set_order inp "" = Raised d' (KeyError (unsupported_msg sym)) ->
  run set_order lm su ol process inp clean pause rs
  = Raised (mkRun d' (events rs) (oc rs)) (KeyError (unsupported_msg sym)).
Proof.
  intros Hw; unfold run, on_deck, zoom, bind, modify; rewrite Hw; reflexivity.
Qed.

(** [d[k]] returns the value stored under [k] when the keys are distinct. *)
Lemma lookup_In {A} (k : string) (v : A) d :
  lookup k d = Some v -> In (k, v) d.
Proof.
  induction d as [| [k' v'] d IH]; cbn; [discriminate |].
  destruct (String.eqb_spec k k') as [-> | _]; [intros H; inversion H; left; reflexivity |].
  intros H; right; apply IH, H.
Qed.

Lemma In_lookup {A} (k : string) (v : A) d :
  NoDup (map fst d) -> In (k, v) d -> lookup k d = Some v.
Proof.
  induction d as [| [k' v'] d IH]; cbn; [contradiction |].
  intros Hnd Hin; inversion Hnd as [| ? ? Hnotin Hnd']; subst.
  destruct Hin as [Heq | Hin].
  - inversion Heq; subst; rewrite String.eqb_refl; reflexivity.
  - destruct (String.eqb_spec k k') as [-> | _]; [| apply IH; assumption].
    exfalso; apply Hnotin; apply (in_map fst) in Hin; exact Hin.
Qed.

Lemma at_types_keys_nodup : NoDup (map fst at_types).
Proof.
  assert (E : nodupb (map fst at_types) = true) by (vm_compute; reflexivity).
  revert E; generalize (map fst at_types) as xs; induction xs as [| x xs IH]; cbn.
  - intros _; constructor.
  - intros E; apply andb_true_iff in E as [E1 E2]; constructor; [| apply IH, E2].
    intros Hin; apply negb_true_iff in E1.
    assert (existsb (String.eqb x) xs = true) as E3
      by (apply existsb_exists; exists x; split; [exact Hin | apply String.eqb_refl]).
    congruence.
Qed.

End OCFacts.

Module OCReadFacts.
Import Py StExc Pyxtal GULP_OC Facts.









End OCReadFacts.

Module GulpReadFacts.
Import Py StExc Pyxtal GULP Facts GulpFacts.

Lemma fail_fields g :
  g_error (fail g) = true /\ g_energy (fail g) = None /\ g_optimized (fail g) = g_optimized g.
Proof. repeat split. Qed.

(** A raise in the [try] block leaves [error = True] and [energy = None]. *)
Lemma read_after_raise lines g r e :
  scan lines (read_ltype g) 0 lines (mkR g None None) = Raised r e ->
  g_error (read lines g) = true /\ g_energy (read lines g) = None.
Proof.
  intros Hs; destruct (read_fields lines g) as (He & Hen & _).
  unfold read_try in He, Hen; rewrite Hs in He, Hen; cbn in He, Hen.
  rewrite He, Hen; unfold energy_bad; cbn; rewrite orb_true_r; split; reflexivity.
Qed.

(** Starting from [error = False], [read] sets [error] exactly when it
    clears [energy]. *)
Lemma read_error_iff_no_energy lines g :
  g_error g = false ->
  (g_error (read lines g) = true <-> g_energy (read lines g) = None).
Proof.
  intros Hg; destruct (read_fields lines g) as (He & Hen & _).
  rewrite He, Hen; unfold read_try.
  pose proof (scan_pres (fun r => g_error (self r) = false) lines (read_ltype g) 0 lines
                (fun j l _ => read_line_keeps_error lines (read_ltype g) j l)
                (mkR g None None) Hg) as Hp.
  destruct (scan lines (read_ltype g) 0 lines (mkR g None None)) as [r u | r e]; cbn in Hp |- *.
  - rewrite Hp; cbn; unfold energy_bad.
    destruct (no_lattice r); cbn; [split; reflexivity |].
    destruct (g_energy (self r)) as [x |]; cbn; [| split; reflexivity].
    destruct (isnan x); split; (reflexivity || discriminate).
  - unfold energy_bad; cbn; rewrite !orb_true_r; split; reflexivity.
Qed.

End GulpReadFacts.

Module OrderFacts.
Import Py Samples.

Lemma set_iteration_singleton f x : set_iteration f -> f [x] = [x].
Proof.
  intros Hf; destruct (Hf [x]) as [Hnd Hin].
  destruct (f [x]) as [| a l] eqn:E.
  - exfalso; apply (proj2 (Hin x)); left; reflexivity.
  - assert (a = x) as -> by (destruct (proj1 (Hin a) (or_introl eq_refl)) as [-> | []]; reflexivity).
    destruct l as [| b l]; [reflexivity |].
    exfalso; inversion Hnd as [| ? ? Hnot _]; apply Hnot.
    destruct (proj1 (Hin b) (or_intror (or_introl eq_refl))) as [-> | []]; left; reflexivity.
Qed.


Lemma order1_set_iteration : set_iteration order1.
Proof.
  intros xs; unfold order1; split; [apply NoDup_nodup |].
  intros x; apply nodup_In.
Qed.


End OrderFacts.

(* ================================================================== *)
(** * The claims *)

Module Claims.
Import Py StExc Pyxtal GULP Facts GulpFacts GulpReadFacts OCReadFacts OCFacts OrderFacts
       Samples MoreSamples Symbols.

(** ** GULP.read and GULP_OC.read on a failing scan *)

(** C1 (counterexample): a log cut inside the "Final fractional coordinates
    of atoms" block, before its dashed line, makes [GULP_OC.read] raise
    [IndexError] out of the call, while [GULP.read] on the same log returns
    with [error = True]. *)
Lemma C1_counterexample :
  (exists o', GULP_OC.read matrix_of store_update keep_opt log_truncated oc0 = Raised o' IndexError) /\
  g_error (read log_truncated gulp0) = true.
Proof.
  split; [| vm_compute; reflexivity].
  destruct (GULP_OC.read matrix_of store_update keep_opt log_truncated oc0) as [o u | o e] eqn:E;
    vm_compute in E; [discriminate |].
  injection E as _ He; subst e; exists o; reflexivity.
Qed.

(** C1 (amended): [GULP.read] catches every exception of its scanning loop
    and returns with [error = True] and [energy = None]; [GULP_OC.read] has
    no [try] around its loop and no error attribute, so an exception of its
    loop leaves the call unchanged, with the state reached at the raise. *)
Theorem C1_read_catches_oc_read_propagates :
  (forall lines g r e,
     scan lines (read_ltype g) 0 lines (mkR g None None) = Raised r e ->
     g_error (read lines g) = true /\ g_energy (read lines g) = None) /\
  (forall lm su ol lines o o' e,
     GULP_OC.scan lines 0 lines o = Raised o' e ->
     GULP_OC.read lm su ol lines o = Raised o' e).
Proof.
  split.
  - intros lines g r e Hs; exact (read_after_raise lines g r e Hs).
  - intros lm su ol lines o o' e Hs; unfold GULP_OC.read, bind; rewrite Hs; reflexivity.
Qed.

Lemma C1_witness :
  (g_error (read log_truncated gulp0) = true /\ g_energy (read log_truncated gulp0) = None) /\
  (exists o', GULP_OC.read matrix_of store_update keep_opt log_truncated oc0 = Raised o' IndexError).
Proof.
  split.
  - destruct (scan log_truncated (read_ltype gulp0) 0 log_truncated (mkR gulp0 None None))
      as [r u | r e] eqn:E; [vm_compute in E; discriminate |].
    exact (proj1 C1_read_catches_oc_read_propagates log_truncated gulp0 r e E).
  - destruct (GULP_OC.scan log_truncated 0 log_truncated oc0) as [o u | o e] eqn:E;
      [vm_compute in E; discriminate |].
    exists o.
    assert (He : e = IndexError) by (vm_compute in E; injection E as _ He; symmetry; exact He).
    subst e; exact (proj2 C1_read_catches_oc_read_propagates matrix_of store_update keep_opt log_truncated oc0 o
                      IndexError E).
Defined.

(** ** The "Job Finished" marker *)

(** C2 (counterexample): a log with an energy line and a lattice block but
    no "Job Finished" line is read with [error = False] and the energy kept. *)
Lemma C2_counterexample :
  forallb (fun l => negb (contains l "Job Finished")) log_no_marker = true /\
  g_error (read log_no_marker gulp0) = false /\
  g_energy (read log_no_marker gulp0) = Some (PFin (-12.34567890)%Q).
Proof. vm_compute; repeat split; reflexivity. Qed.

(** C2 (amended): on a log without "Job Finished", starting from
    [error = False] and [optimized = False], [read] leaves
    [optimized = False]; [error] is set exactly when the loop raised, no
    lattice block was read, or the energy is missing or NaN; and [energy] is
    [None] exactly when [error] is set.  The marker does not enter [error]. *)
Theorem C2_marker_sets_only_optimized (lines : list string) (g : gulp) :
  g_error g = false ->
  g_optimized g = false ->
  forallb (fun l => negb (contains l "Job Finished")) lines = true ->
  g_optimized (read lines g) = false /\
  g_error (read lines g) =
    match scan lines (read_ltype g) 0 lines (mkR g None None) with
    | Raised _ _ => true
    | Done r _ => no_lattice r || energy_bad (self r)
    end /\
  (g_energy (read lines g) = None <-> g_error (read lines g) = true).
Proof.
  intros Hg Ho Hjf.
  destruct (read_fields lines g) as (He & _ & Hop & _).
  pose proof (scan_pres (fun r => g_error (self r) = false) lines (read_ltype g) 0 lines
                (fun j l _ => read_line_keeps_error lines (read_ltype g) j l)
                (mkR g None None) Hg) as Hpe.
  assert (Hpo : forall j l, In l lines ->
            preserves (fun r => g_optimized (self r) = false) (read_line lines (read_ltype g) j l)).
  { intros j l Hin; apply read_line_keeps_not_optimized.
    rewrite forallb_forall in Hjf; apply negb_true_iff, Hjf, Hin. }
  pose proof (scan_pres _ lines (read_ltype g) 0 lines Hpo (mkR g None None) Ho) as Hpo'.
  split; [| split].
  - rewrite Hop; unfold read_try.
    destruct (scan lines (read_ltype g) 0 lines (mkR g None None)); exact Hpo'.
  - rewrite He; unfold read_try.
    destruct (scan lines (read_ltype g) 0 lines (mkR g None None)); cbn in Hpe |- *;
      [rewrite Hpe; reflexivity | reflexivity].
  - symmetry; apply read_error_iff_no_energy, Hg.
Qed.

Lemma C2_witness :
  g_optimized (read log_no_marker gulp0) = false /\
  g_error (read log_no_marker gulp0) = false.
Proof.
  destruct (C2_marker_sets_only_optimized log_no_marker gulp0 eq_refl eq_refl
              ltac:(vm_compute; reflexivity)) as (Ho & He & _).
  split; [exact Ho |].
  rewrite He; vm_compute; reflexivity.
Defined.

(** ** The energy and the error flag *)

(** C4: [np.isnan] does not reject an infinite energy: a log whose energy
    field reads [inf], with a lattice block and the "Job Finished" line, is
    read with [error = False] and [energy = inf]. *)
Theorem C4_infinite_energy_accepted :
  g_error (read log_inf gulp0) = false /\
  g_energy (read log_inf gulp0) = Some (PInf false) /\
  isnan (PInf false) = false.
Proof. vm_compute; repeat split; reflexivity. Qed.

(** ** Lattice precedence *)

(** C5: [read] keeps the lattice of the "Non-primitive lattice parameters"
    block when both blocks were read, the only one read otherwise, sets
    [error] when none was read, and gives the pyxtal object the same lattice. *)
Theorem C5_para_over_vector (lines : list string) (g : gulp) :
  (forall lp lv, lattice_para (read_try lines g) = Some lp ->
     lattice_vector (read_try lines g) = Some lv -> g_lattice (read lines g) = lp) /\
  (forall lp, lattice_para (read_try lines g) = Some lp ->
     lattice_vector (read_try lines g) = None -> g_lattice (read lines g) = lp) /\
  (forall lv, lattice_para (read_try lines g) = None ->
     lattice_vector (read_try lines g) = Some lv -> g_lattice (read lines g) = lv) /\
  (lattice_para (read_try lines g) = None -> lattice_vector (read_try lines g) = None ->
     g_error (read lines g) = true) /\
  (forall px, g_pyxtal (read lines g) = Some px -> px_lattice px = g_lattice (read lines g)).
Proof.
  destruct (read_fields lines g) as (He & _ & _ & Hl & Hpx).
  repeat split.
  - intros lp lv H1 H2; rewrite Hl, H1; reflexivity.
  - intros lp H1 H2; rewrite Hl, H1; reflexivity.
  - intros lv H1 H2; rewrite Hl, H1, H2; reflexivity.
  - intros H1 H2; rewrite He; unfold no_lattice; rewrite H1, H2, orb_true_r; reflexivity.
  - exact Hpx.
Qed.

Lemma C5_witness :
  g_lattice (read log_both gulp0) =
    FromPara (PFin 5.000000) (PFin 5.000000) (PFin 5.000000)
             (PFin 90.000000) (PFin 90.000000) (PFin 90.000000) "triclinic".
Proof.
  assert (E1 : lattice_para (read_try log_both gulp0) =
               Some (FromPara (PFin 5.000000) (PFin 5.000000) (PFin 5.000000)
                              (PFin 90.000000) (PFin 90.000000) (PFin 90.000000) "triclinic"))
    by (vm_compute; reflexivity).
  destruct (lattice_vector (read_try log_both gulp0)) as [lv |] eqn:E2;
    [| vm_compute in E2; discriminate].
  exact (proj1 (C5_para_over_vector log_both gulp0) _ lv E1 E2).
Defined.

(** ** [optimize] *)

(** C3: [optimize] passes [exe=exe] to [single_optimize], which has no
    [exe] parameter, so the first call of its loop raises [TypeError] before
    any stage runs, for every structure and every non-empty list of modes,
    and for the default list. *)
Theorem C3_optimize_raises_type_error (S : Type) stage rescale (struc : S) adjust tr :
  (forall o opts,
     Drivers.optimize S stage rescale struc (Some (o :: opts)) adjust tr =
     Raised tr (TypeError "single_optimize() got an unexpected keyword argument 'exe'")) /\
  Drivers.optimize S stage rescale struc None adjust tr =
  Raised tr (TypeError "single_optimize() got an unexpected keyword argument 'exe'").
Proof. split; [intros o opts |]; reflexivity. Qed.

(** ** Shell lines in [GULP.write] *)

(** C6: with the "catlow" force field, the all-coordinates branch writes
    only a core line for an oxygen site, while the symmetry branch writes
    the paired shell line and the Species section declares an oxygen shell
    in both cases. *)
Theorem C6_no_shell_line_without_symmetry :
  coords_section w_catlow =
    coord_line "O" (0, 0, 0)%Q "core" ++ coord_line "Mg" (1 # 2, 1 # 2, 1 # 2)%Q "core" /\
  contains (coords_section w_catlow) "shell" = false /\
  contains (coords_section w_catlow_sym) "O        0.000000     0.000000     0.000000 shell" = true /\
  contains (species_section order1 w_catlow) "O    shell O_O2- shell" = true.
Proof. vm_compute; repeat split; reflexivity. Qed.

(** ** Unsupported atom types in [GULP_OC.write] *)

(** C7: when the sites name a symbol that is not a key of [at_types] (and
    every atom has its species, label and charge), [run] raises
    [KeyError("symbol ... is not supported in GULP-gaff2.lib")] from
    [write] at such a symbol, before [execute]: no event is logged.  The
    code of a registered symbol is its entry in [at_types]. *)
Theorem C7_unsupported_symbol_aborts_run set_order lm su ol process inp clean pause rs syms :
  all_syms inp (GULP_OC.mol_sites inp) = POk syms ->
  forallb (charges_ok inp) (GULP_OC.mol_sites inp) = true ->
  existsb unregistered syms = true ->
  (exists sym d', unregistered sym = true /\ In sym syms /\
     GULP_OC.run set_order lm su ol process inp clean pause rs =
     Raised (GULP_OC.mkRun d' (GULP_OC.events rs) (GULP_OC.oc rs))
            (KeyError (GULP_OC.unsupported_msg sym))) /\
  (forall sym code, GULP_OC.classify sym = Some code <-> In (sym, code) GULP_OC.at_types).
Proof.
  intros Hs Hc Hex; split.
  - destruct (write_fail set_order inp syms "" Hs Hc Hex) as (sym & d' & Hsu & Hin & Hw).
    exists sym, d'; split; [exact Hsu | split; [exact Hin |]].
    apply run_write_fail, Hw.
  - intros sym code; split; [apply lookup_In |].
    apply In_lookup, at_types_keys_nodup.
Qed.

Lemma C7_witness :
  exists d', GULP_OC.run order1 matrix_of store_update keep_opt (fun _ => log_no_cell) oc_input_iodine true false run0 =
             Raised (GULP_OC.mkRun d' [] oc0)
                    (KeyError "symbol I_i is not supported in GULP-gaff2.lib").
Proof.
  destruct (C7_unsupported_symbol_aborts_run order1 matrix_of store_update keep_opt (fun _ => log_no_cell)
              oc_input_iodine true false run0 ["C_c3"; "I_i"]
              ltac:(vm_compute; reflexivity) ltac:(vm_compute; reflexivity)
              ltac:(vm_compute; reflexivity)) as ((sym & d' & Hsu & Hin & Hrun) & _).
  exists d'.
  destruct Hin as [<- | [<- | []]]; [vm_compute in Hsu; discriminate |].
  exact Hrun.
Defined.

(** ** The single-point deck *)

(** C8 (counterexample): the cell line of the single-point deck does not
    contain the text with two spaces between the values. *)
Lemma C8_counterexample :
  contains (write order1 w_single)
    "5.000000  5.000000  5.000000  90.000000  90.000000  90.000000" = false.
Proof. vm_compute; reflexivity. Qed.

(** C8 (amended): for every set order, the single-point deck of a cubic
    5 A cell with one C at the origin is exactly this text: the header
    "grad conp stress nosymmetry", the cell line made of six 12-character
    fields ("    5.000000" three times, then "   90.000000" three times),
    and no "maxcycle" line. *)
Theorem C8_single_point_deck f :
  set_iteration f ->
  write f w_single =
    "grad conp stress nosymmetry" ++ nl ++ nl ++ "cell" ++ nl
    ++ "    5.000000    5.000000    5.000000   90.000000   90.000000   90.000000" ++ nl
    ++ nl ++ "fractional" ++ nl
    ++ "C        0.000000     0.000000     0.000000 core " ++ nl
    ++ nl ++ "Species" ++ nl ++ "C    core C   " ++ nl
    ++ nl ++ "library reaxff" ++ nl ++ "ewald 10.0" ++ nl /\
  contains (write f w_single) "maxcycle" = false.
Proof.
  intros Hf.
  assert (E : write f w_single = write order1 w_single).
  { unfold write, species_section; change (w_sites w_single) with ["C"].
    rewrite (set_iteration_singleton f "C" Hf); reflexivity. }
  rewrite E; vm_compute; split; reflexivity.
Qed.

Lemma C8_witness :
  contains (write order1 w_single)
    "    5.000000    5.000000    5.000000   90.000000   90.000000   90.000000" = true.
Proof.
  rewrite (proj1 (C8_single_point_deck order1 order1_set_iteration)).
  vm_compute; reflexivity.
Defined.

(** ** Species order *)




(** ** The lattice of [GULP_OC.read] *)




End Claims.

(* ================================================================== *)
(** * Further facts about the embedded code *)

Module BlockFacts.
Import Py GULP.

(** The row loops of the coordinate and force blocks. *)
Lemma coord_rows_no_sentinel ls :
  forallb (fun l => negb (contains l "------------")) ls = true ->
  exists e, coord_rows ls = PErr e.
Proof.
  induction ls as [| l ls IH]; cbn [coord_rows]; [eexists; reflexivity |].
  intros H; apply andb_true_iff in H as [H1 H2]; apply negb_true_iff in H1; rewrite H1.
  unfold pbind; destruct (floats (slice 3 6 (split l))); [| eexists; reflexivity].
  destruct (index (split l) 1); [| eexists; reflexivity].
  destruct (IH H2) as [e He]; rewrite He; exists e; reflexivity.
Qed.

Lemma coord_rows_sentinel pre d post :
  contains d "------------" = true ->
  coord_rows (pre ++ d :: post)%list = coord_rows (pre ++ [d])%list.
Proof.
  intros Hd; induction pre as [| l pre IH]; cbn; [rewrite Hd; reflexivity |].
  rewrite IH; reflexivity.
Qed.

Lemma forces_rows_no_sentinel ls :
  forallb (fun l => negb (contains l "------------")) ls = true ->
  exists e, forces_rows ls = PErr e.
Proof.
  induction ls as [| l ls IH]; cbn [forces_rows]; [eexists; reflexivity |].
  intros H; apply andb_true_iff in H as [H1 H2]; apply negb_true_iff in H1; rewrite H1.
  unfold pbind; destruct (force_row l); [| eexists; reflexivity].
  destruct (IH H2) as [e He]; rewrite He; exists e; reflexivity.
Qed.

Lemma forces_rows_sentinel pre d post :
  contains d "------------" = true ->
  forces_rows (pre ++ d :: post)%list = forces_rows (pre ++ [d])%list.
Proof.
  intros Hd; induction pre as [| l pre IH]; cbn; [rewrite Hd; reflexivity |].
  rewrite IH; reflexivity.
Qed.

Lemma floats_length xs vs : floats xs = POk vs -> length vs = length xs.
Proof.
  revert vs; induction xs as [| x xs IH]; intros vs H; cbn in H.
  - injection H as <-; reflexivity.
  - unfold pbind in H; destruct (float x); [| discriminate].
    destruct (floats xs) as [vs' |] eqn:E; [| discriminate].
    injection H as <-; cbn; f_equal; apply IH; reflexivity.
Qed.

Lemma force_row_length l r : force_row l = POk r -> length r = 3%nat.
Proof.
  unfold force_row; destruct (repair_row _) as [[g0 g1] g2]; unfold pbind.
  destruct (floats [g0; g1; g2]) as [vs |] eqn:E; [| discriminate].
  intros H; injection H as <-; rewrite length_map; exact (floats_length _ _ E).
Qed.

Lemma index_nth {A} (xs : list A) n a d : index xs n = POk a -> nth n xs d = a.
Proof.
  unfold index; destruct (nth_error xs n) eqn:E; [| discriminate].
  intros H; injection H as <-; apply nth_error_nth; exact E.
Qed.

End BlockFacts.

Module ReadFacts.
Import Py StExc Pyxtal GULP GULPRun Facts GulpFacts.

Lemma bind_get_eq {S A} (k : S -> St S A) (s : S) : bind get k s = k s s.
Proof. reflexivity. Qed.

Lemma bind_lift_ok {S A B} (a : A) (k : A -> St S B) (s : S) : bind (lift (POk a)) k s = k a s.
Proof. reflexivity. Qed.

Lemma bind_lift_err {S A B} (e : exn) (k : A -> St S B) (s : S) :
  bind (lift (PErr e)) k s = Raised s e.
Proof. reflexivity. Qed.

Lemma energy_literal_frame g' g : frame g' g -> energy_literal g' = energy_literal g.
Proof.
  unfold frame, energy_literal; intros (H1 & H2 & H3); rewrite H1, H2.
  destruct (g_pyxtal g') as [p' |], (g_pyxtal g) as [p |]; cbn in H3; try discriminate;
    [injection H3 as H3; rewrite H3 |]; reflexivity.
Qed.

Lemma update_site_frame k xyz g0 (r : rstate) :
  frame (self r) g0 -> frame (self (on_self (update_site k xyz) r)) g0.
Proof.
  intros H; unfold on_self; cbn [self]; unfold update_site.
  destruct (g_pyxtal (self r)) as [px |] eqn:E; [| exact H].
  unfold frame in *; cbn; rewrite E in H; cbn in H; tauto.
Qed.

(** No line of the log changes the attributes that choose the energy
    pattern. *)
Lemma read_line_frame lines ltype i l g0 :
  preserves (fun r => frame (self r) g0) (read_line lines ltype i l).
Proof.
  unfold read_line; repeat pres_step; cbn in *;
    try (apply asym_sites_pres; intros; apply update_site_frame; assumption);
    unfold frame in *; cbn; tauto.
Qed.

Lemma update_site_energy k xyz (r : rstate) :
  g_energy (self (on_self (update_site k xyz) r)) = g_energy (self r) /\
  g_energy_per_atom (self (on_self (update_site k xyz) r)) = g_energy_per_atom (self r).
Proof. unfold on_self, update_site; cbn; destruct (g_pyxtal (self r)); split; reflexivity. Qed.

(** A line that does not match the energy pattern leaves [energy],
    [energy_per_atom] and the frame as they were, whether it raises or not. *)
Lemma read_line_no_match lines ltype i line lit (s : rstate) :
  energy_literal (self s) = POk lit ->
  Re.match_energy lit line = None ->
  match read_line lines ltype i line s with
  | Done s' _ | Raised s' _ =>
      g_energy (self s') = g_energy (self s) /\
      g_energy_per_atom (self s') = g_energy_per_atom (self s) /\ frame (self s') (self s)
  end.
Proof.
  intros Hl Hm; unfold read_line; rewrite bind_get_eq, Hl, bind_lift_ok; cbv beta; rewrite Hm.
  match goal with
  | |- match ?m s with _ => _ end =>
      assert (Hp : preserves (fun r => g_energy (self r) = g_energy (self s) /\
                                       g_energy_per_atom (self r) = g_energy_per_atom (self s) /\
                                       frame (self r) (self s)) m)
  end.
  { repeat pres_step; cbn in *;
      try (apply asym_sites_pres; intros k xyz r (H1 & H2 & H3);
           destruct (update_site_energy k xyz r) as [E1 E2]; rewrite E1, E2;
           split; [exact H1 | split; [exact H2 | apply update_site_frame, H3]]);
      unfold frame in *; cbn; tauto. }
  apply Hp; split; [reflexivity | split; [reflexivity |]].
  unfold frame; tauto.
Qed.

Lemma frame_refl g : frame g g.
Proof. unfold frame; tauto. Qed.

Lemma frame_trans a b c : frame a b -> frame b c -> frame a c.
Proof. unfold frame; intros (H1 & H2 & H3) (H4 & H5 & H6); rewrite H1, H2, H3; tauto. Qed.

(** A line that matches the energy pattern, when its loop body finishes,
    sets [energy] to its value and [energy_per_atom]. *)
Lemma read_line_match lines ltype i line lit grp e (s s' : rstate) u :
  energy_literal (self s) = POk lit ->
  Re.match_energy lit line = Some grp ->
  float grp = POk e ->
  read_line lines ltype i line s = Done s' u ->
  g_energy (self s') = Some e /\ g_energy_per_atom (self s') <> None /\ frame (self s') (self s).
Proof.
  intros Hl Hm Hf H; unfold read_line in H.
  rewrite bind_get_eq, Hl, bind_lift_ok in H; cbv beta in H; rewrite Hm, Hf, bind_lift_ok in H.
  cbv [bind modify get lift on_self] in H.
  destruct (fdiv_nat e _) eqn:Ed; [| discriminate].
  injection H as <- _; cbn; split; [reflexivity | split; [discriminate |]].
  unfold frame; cbn; tauto.
Qed.

Lemma scan_app lines ltype i xs ys (s : rstate) :
  scan lines ltype i (xs ++ ys)%list s =
  match scan lines ltype i xs s with
  | Done s1 _ => scan lines ltype (i + length xs) ys s1
  | Raised s1 e => Raised s1 e
  end.
Proof.
  revert i s; induction xs as [| x xs IH]; intros i s.
  - cbn; rewrite Nat.add_0_r; reflexivity.
  - cbn [app scan]; unfold bind.
    destruct (read_line lines ltype i x s) as [s1 u | s1 e]; [| reflexivity].
    rewrite IH; cbn [length]; replace (S i + length xs)%nat with (i + S (length xs))%nat by lia.
    reflexivity.
Qed.

(** An invariant of the loop bodies that finish holds when the loop finishes. *)
Lemma scan_done_ind (P : rstate -> Prop) lines ltype i rest (s s' : rstate) u :
  (forall j l s1 s2 u', In l rest -> P s1 -> read_line lines ltype j l s1 = Done s2 u' -> P s2) ->
  P s -> scan lines ltype i rest s = Done s' u -> P s'.
Proof.
  revert i s; induction rest as [| l rest IH]; intros i s Hstep Hs H.
  - cbn in H; injection H as <- _; exact Hs.
  - cbn [scan] in H; unfold bind at 1 in H.
    destruct (read_line lines ltype i l s) as [s1 u1 | s1 e] eqn:E; [| discriminate].
    apply (IH (S i) s1); [intros j l' s2 s3 u' Hin; apply Hstep; right; exact Hin | | exact H].
    apply (Hstep i l s s1 u1); [left; reflexivity | exact Hs | exact E].
Qed.

(** [read] reports no error only when its loop finished. *)
Lemma read_no_error_done lines g :
  g_error (read lines g) = false ->
  exists r u, scan lines (read_ltype g) 0 lines (mkR g None None) = Done r u /\
    no_lattice r = false /\ energy_bad (self r) = false /\
    g_energy (read lines g) = g_energy (self r).
Proof.
  intros Herr; destruct (read_fields lines g) as (He & Hen & _).
  unfold read_try in He, Hen.
  destruct (scan lines (read_ltype g) 0 lines (mkR g None None)) as [r u | r ex] eqn:Hs.
  - rewrite Herr in He; symmetry in He; apply orb_false_iff in He as [He1 He2].
    apply orb_false_iff in He1 as [_ He1].
    exists r, u; split; [reflexivity | split; [exact He1 | split; [exact He2 |]]].
    rewrite Hen, He1, He2; reflexivity.
  - cbn in He; rewrite Herr in He; discriminate.
Qed.

Lemma read_per_atom lines g :
  g_energy_per_atom (read lines g) = g_energy_per_atom (self (read_try lines g)).
Proof.
  unfold read; destruct (read_try lines g) as [x lp lv]; cbn [lattice_para lattice_vector self].
  destruct lp, lv; cbn; destruct (g_pyxtal _); cbn;
    repeat (match goal with |- context [match ?x with _ => _ end] => destruct x end; cbn);
    reflexivity.
Qed.

(** Lines that never match the energy pattern leave [energy] unset. *)
Lemma read_without_energy_line lines g lit :
  g_energy g = None ->
  energy_literal g = POk lit ->
  forallb (fun l => match Re.match_energy lit l with Some _ => false | None => true end) lines
    = true ->
  g_error (read lines g) = true /\ g_energy (read lines g) = None.
Proof.
  intros Hg Hl Hall.
  destruct (read_fields lines g) as (He & Hen & _).
  unfold read_try in He, Hen.
  pose proof (scan_pres (fun r => g_energy (self r) = None /\ frame (self r) g)
                lines (read_ltype g) 0 lines) as Hp.
  destruct (scan lines (read_ltype g) 0 lines (mkR g None None)) eqn:Hs.
  - rewrite He, Hen; unfold energy_bad.
    assert (Hr : g_energy (self s) = None).
    { refine (proj1 (_ : g_energy (self s) = None /\ frame (self s) g)).
      specialize (Hp ltac:(intros j l Hin s0 (H1 & H2);
                    rewrite forallb_forall in Hall; specialize (Hall l Hin);
                    assert (Hl0 : energy_literal (self s0) = POk lit)
                      by (rewrite (energy_literal_frame _ _ H2); exact Hl);
                    destruct (Re.match_energy lit l) eqn:Hm; [discriminate |];
                    pose proof (read_line_no_match lines (read_ltype g) j l lit s0 Hl0 Hm) as Hq;
                    destruct (read_line lines (read_ltype g) j l s0);
                    destruct Hq as (Q1 & _ & Q3);
                    (split; [rewrite Q1; exact H1 | exact (frame_trans _ _ _ Q3 H2)]))).
      specialize (Hp (mkR g None None) (conj Hg (frame_refl g))).
      rewrite Hs in Hp; exact Hp. }
    rewrite Hr, !orb_true_r; split; reflexivity.
  - cbn in He, Hen |- *; rewrite He, Hen; unfold energy_bad; cbn; rewrite !orb_true_r.
    split; reflexivity.
Qed.

(** A loop body that finishes never leaves [energy] set without
    [energy_per_atom]. *)
Lemma read_line_per_atom lines ltype i line (s s' : rstate) u :
  (g_energy (self s) = None \/ g_energy_per_atom (self s) <> None) ->
  read_line lines ltype i line s = Done s' u ->
  g_energy (self s') = None \/ g_energy_per_atom (self s') <> None.
Proof.
  intros Hinv H.
  destruct (energy_literal (self s)) as [lit | ex] eqn:El.
  - destruct (Re.match_energy lit line) as [grp |] eqn:Hm.
    + destruct (float grp) as [e | ex] eqn:Hf.
      * destruct (read_line_match lines ltype i line lit grp e s s' u El Hm Hf H) as (_ & H2 & _).
        right; exact H2.
      * unfold read_line in H; rewrite bind_get_eq, El, bind_lift_ok in H; cbv beta in H.
        rewrite Hm, Hf, bind_lift_err in H; discriminate.
    + pose proof (read_line_no_match lines ltype i line lit s El Hm) as Hq.
      rewrite H in Hq; destruct Hq as (Q1 & Q2 & _); rewrite Q1, Q2; exact Hinv.
  - unfold read_line in H; rewrite bind_get_eq, El, bind_lift_err in H; discriminate.
Qed.

End ReadFacts.

Module RunFacts.
Import Py StExc Pyxtal GULP GULPRun.

Lemma has_drop p q fs :
  has_file p (drop_file q fs) = negb (String.eqb p q) && has_file p fs.
Proof.
  unfold has_file, drop_file; induction fs as [| r fs IH]; cbn; [rewrite andb_false_r; reflexivity |].
  destruct (String.eqb_spec r q) as [-> | Hne]; cbn.
  - rewrite IH; destruct (String.eqb p q); reflexivity.
  - rewrite IH; destruct (String.eqb_spec p r) as [-> | _]; [| reflexivity].
    apply String.eqb_neq in Hne; rewrite Hne; reflexivity.
Qed.

Lemma has_add p q fs : has_file p (add_file q fs) = String.eqb p q || has_file p fs.
Proof.
  unfold add_file; cbn [has_file existsb]; fold (has_file p (drop_file q fs)).
  rewrite has_drop; destruct (String.eqb p q); reflexivity.
Qed.

Lemma has_execute p nm created fs :
  has_file p (execute nm created fs) =
  has_file p created || String.eqb p (output nm) || has_file p fs.
Proof.
  unfold execute; induction created as [| q created IH]; cbn [fold_right].
  - rewrite has_add; reflexivity.
  - rewrite has_add, IH; unfold has_file; cbn; destruct (String.eqb p q); reflexivity.
Qed.

Lemma list_ascii_app a b :
  list_ascii_of_string (a ++ b) = (list_ascii_of_string a ++ list_ascii_of_string b)%list.
Proof. induction a as [| c a IH]; cbn; [reflexivity | rewrite IH; reflexivity]. Qed.

Lemma split_go_word cs rest cur :
  forallb (fun c => negb (is_space c)) cs = true ->
  split_go (cs ++ rest) cur = split_go rest (rev cs ++ cur).
Proof.
  revert cur; induction cs as [| c cs IH]; intros cur H; [reflexivity |].
  cbn in H; apply andb_true_iff in H as [H1 H2]; apply negb_true_iff in H1.
  cbn; rewrite H1, IH by exact H2; rewrite <- app_assoc; reflexivity.
Qed.

Lemma plain_not_space c : plain_char c = true -> is_space c = false.
Proof.
  destruct c as [[] [] [] [] [] [] [] []]; intros H;
    first [reflexivity | discriminate H].
Qed.

Lemma plain_all cs :
  forallb plain_char cs = true -> forallb (fun c => negb (is_space c)) cs = true.
Proof.
  induction cs as [| c cs IH]; cbn; [reflexivity |].
  intros H; apply andb_true_iff in H as [H1 H2].
  rewrite (plain_not_space c H1), (IH H2); reflexivity.
Qed.

Lemma word_parts p :
  word p = true ->
  list_ascii_of_string p <> [] /\
  forallb (fun c => negb (is_space c)) (list_ascii_of_string p) = true.
Proof.
  destruct p as [| c p]; [discriminate |]; intros H.
  apply andb_true_iff in H as [_ H]; split; [discriminate | apply plain_all, H].
Qed.

Lemma split_mv a b :
  word a = true -> word b = true -> split ("mv " ++ a ++ " " ++ b) = ["mv"; a; b].
Proof.
  intros Ha Hb; apply word_parts in Ha as [Ha1 Ha2]; apply word_parts in Hb as [Hb1 Hb2].
  unfold split; rewrite !list_ascii_app; cbn -[is_space].
  replace (is_space "m"%char) with false by reflexivity.
  replace (is_space "v"%char) with false by reflexivity.
  replace (is_space " "%char) with true by reflexivity.
  rewrite split_go_word by exact Ha2; rewrite app_nil_r; cbn -[is_space].
  replace (is_space " "%char) with true by reflexivity.
  destruct (rev (list_ascii_of_string a)) as [| c ca] eqn:Ea.
  - apply (f_equal (@rev _)) in Ea; rewrite rev_involutive in Ea; contradiction.
  - rewrite <- Ea, rev_involutive, string_of_list_ascii_of_string.
    rewrite <- (app_nil_r (list_ascii_of_string b)), split_go_word by exact Hb2.
    rewrite app_nil_r; cbn.
    destruct (rev (list_ascii_of_string b)) as [| d db] eqn:Eb.
    + apply (f_equal (@rev _)) in Eb; rewrite rev_involutive in Eb; contradiction.
    + rewrite <- Eb, rev_involutive, string_of_list_ascii_of_string; reflexivity.
Qed.

Lemma mv_words sh a b fs :
  word a = true -> word b = true ->
  os_system_mv sh a b fs =
  if has_file a fs && negb (String.eqb a b) then add_file b (drop_file a fs) else fs.
Proof.
  intros Ha Hb; unfold os_system_mv; cbv zeta; rewrite split_mv by assumption.
  rewrite Ha, Hb; reflexivity.
Qed.

(** A rename by [mv] never creates a file other than its target. *)
Lemma mv_keeps_absent sh a b fs d :
  word a = true -> word b = true -> String.eqb d b = false -> has_file d fs = false ->
  has_file d (os_system_mv sh a b fs) = false.
Proof.
  intros Ha Hb Hdb Hd; rewrite mv_words by assumption.
  destruct (has_file a fs && negb (String.eqb a b)); [| exact Hd].
  rewrite has_add, has_drop, Hdb, Hd, andb_false_r; reflexivity.
Qed.

Lemma length_app_str a b : String.length (a ++ b) = (String.length a + String.length b)%nat.
Proof. induction a as [| c a IH]; cbn; [reflexivity | rewrite IH; reflexivity]. Qed.

Lemma neq_suffix a b : b <> "" -> String.eqb a (a ++ b) = false.
Proof.
  intros Hb; apply String.eqb_neq; intros E; apply (f_equal String.length) in E.
  rewrite length_app_str in E; destruct b; [contradiction | cbn in E; lia].
Qed.

Lemma word_suffix a : word a = true -> word (a ++ "_error") = true.
Proof.
  destruct a as [| c a]; [discriminate |]; intros Ha.
  change (word (String c (a ++ "_error")) = true).
  unfold word in *; apply andb_true_iff in Ha as [H1 H2]; rewrite H1; cbn [andb].
  change (list_ascii_of_string (String c (a ++ "_error")))
    with (list_ascii_of_string (String c a ++ "_error")).
  rewrite list_ascii_app, forallb_app, H2; reflexivity.
Qed.

Lemma app_cancel_l (a b c : string) : a ++ b = a ++ c -> b = c.
Proof. induction a as [| x a IH]; cbn; [tauto | intros H; injection H; exact IH]. Qed.

(** The tolerance loop of [to_pyxtal] always leaves a structure. *)
Lemma seed_loop_ok (f : Q -> pyxtal + pyxtal) tols s :
  exists p, seed_loop f tols (Some s) = POk p.
Proof.
  revert s; induction tols as [| t tols IH]; intros s; cbn; [eexists; reflexivity |].
  destruct (f t); [eexists; reflexivity | apply IH].
Qed.

Lemma seed_loop_cons (f : Q -> pyxtal + pyxtal) t tols o :
  seed_loop f (t :: tols) o =
  match f t with inl s => POk s | inr s => seed_loop f tols (Some s) end.
Proof. reflexivity. Qed.

(** The loop of [to_pyxtal] over its four tolerances: the first structure
    [from_seed] accepts, or the object left by the last attempt. *)
Lemma seed_loop_first_success (f : Q -> pyxtal + pyxtal) :
  exists p, seed_loop f [1 # 100; 1 # 1000; 1 # 10000; 1 # 100000]%Q None = POk p /\
  ((exists pre t post,
      [1 # 100; 1 # 1000; 1 # 10000; 1 # 100000]%Q = (pre ++ t :: post)%list /\
      f t = inl p /\ Forall (fun t' => exists q, f t' = inr q) pre) \/
   (Forall (fun t => exists q, f t = inr q) [1 # 100; 1 # 1000; 1 # 10000; 1 # 100000]%Q
    /\ f (1 # 100000)%Q = inr p)).
Proof.
  cbn [seed_loop].
  destruct (f (1 # 100)%Q) as [p1 | p1] eqn:E1.
  { exists p1; split; [reflexivity |]; left.
    exists [], (1 # 100)%Q, [1 # 1000; 1 # 10000; 1 # 100000]%Q; auto. }
  destruct (f (1 # 1000)%Q) as [p2 | p2] eqn:E2.
  { exists p2; split; [reflexivity |]; left.
    exists [1 # 100]%Q, (1 # 1000)%Q, [1 # 10000; 1 # 100000]%Q; eauto 6. }
  destruct (f (1 # 10000)%Q) as [p3 | p3] eqn:E3.
  { exists p3; split; [reflexivity |]; left.
    exists [1 # 100; 1 # 1000]%Q, (1 # 10000)%Q, [1 # 100000]%Q; eauto 8. }
  destruct (f (1 # 100000)%Q) as [p4 | p4] eqn:E4.
  { exists p4; split; [reflexivity |]; left.
    exists [1 # 100; 1 # 1000; 1 # 10000]%Q, (1 # 100000)%Q, []; eauto 10. }
  exists p4; split; [reflexivity |]; right; eauto 10.
Qed.

End RunFacts.

Module StrFacts.
Import Py GULP RunFacts.

Lemma str_length_list s : String.length s = length (list_ascii_of_string s).
Proof. induction s as [| c s IH]; cbn; [reflexivity | rewrite IH; reflexivity]. Qed.

Lemma list_substring n m s :
  list_ascii_of_string (substring n m s) = firstn m (skipn n (list_ascii_of_string s)).
Proof.
  revert n m; induction s as [| c s IH]; intros n m.
  - destruct n, m; reflexivity.
  - destruct n as [| n].
    + destruct m as [| m]; [reflexivity |]; cbn; rewrite IH; reflexivity.
    + cbn; apply IH.
Qed.

Lemma list_string_inj a b : list_ascii_of_string a = list_ascii_of_string b -> a = b.
Proof.
  intros H; rewrite <- (string_of_list_ascii_of_string a), <- (string_of_list_ascii_of_string b).
  rewrite H; reflexivity.
Qed.

(** Where [min_index] points: at a minus sign, after the first character. *)
Lemma minus_positions_in cs k m :
  In m (minus_positions cs k) ->
  (k < m <= k + length cs)%nat /\ nth_error cs (m - k - 1) = Some "-"%char.
Proof.
  revert k; induction cs as [| c cs IH]; intros k H; cbn in H; [contradiction |].
  destruct (Ascii.eqb_spec c "-") as [-> | _].
  - destruct H as [<- | H].
    + split; [cbn [length]; lia |]; replace (S k - k - 1)%nat with 0%nat by lia; reflexivity.
    + destruct (IH (S k) H) as [H1 H2]; split; [cbn [length]; lia |].
      replace (m - k - 1)%nat with (S (m - S k - 1)) by lia; exact H2.
  - destruct (IH (S k) H) as [H1 H2]; split; [cbn [length]; lia |].
    replace (m - k - 1)%nat with (S (m - S k - 1)) by lia; exact H2.
Qed.

Lemma minus_positions_sorted cs k m r :
  minus_positions cs k = m :: r -> forall x, In x r -> (m < x)%nat.
Proof.
  revert k; induction cs as [| c cs IH]; intros k H x Hx; cbn in H; [discriminate |].
  destruct (Ascii.eqb c "-").
  - injection H as <- <-; apply minus_positions_in in Hx; lia.
  - exact (IH (S k) H x Hx).
Qed.

Lemma min_index_in t m :
  In m (min_index t) ->
  (1 <= m < String.length t)%nat /\ skipn m (list_ascii_of_string t) <> [] /\
  hd "a"%char (skipn m (list_ascii_of_string t)) = "-"%char.
Proof.
  unfold min_index, str_from; intros H; apply minus_positions_in in H as [H1 H2].
  rewrite list_substring, str_length_list in *.
  set (L := list_ascii_of_string t) in *.
  rewrite firstn_all2 in * by (rewrite length_skipn; lia).
  rewrite length_skipn in H1.
  rewrite nth_error_skipn in H2; replace (1 + (m - 0 - 1))%nat with m in H2 by lia.
  split; [lia |].
  destruct (skipn m L) as [| c r] eqn:E.
  - rewrite <- (firstn_skipn m L), E, app_nil_r, nth_error_firstn in H2.
    destruct (m <? m)%nat eqn:Em; [apply Nat.ltb_lt in Em; lia | discriminate].
  - split; [discriminate |].
    rewrite <- (firstn_skipn m L), E, nth_error_app2 in H2 by (rewrite length_firstn; lia).
    rewrite length_firstn, Nat.min_l in H2 by lia; rewrite Nat.sub_diag in H2.
    injection H2 as ->; reflexivity.
Qed.

End StrFacts.

(* ================================================================== *)
(** * Further properties of the code *)

Module Extras.
Import Py StExc Pyxtal GULP GULPRun Facts GulpFacts ReadFacts BlockFacts RunFacts StrFacts Samples
  MoreSamples.

(** [GULP.read] takes its energy from the last line of the log that matches
    the energy pattern: when it reports no error, [energy] is the value on
    that line (GULP prints the initial energy before the final one). *)
Theorem read_energy_is_last_match lines g pre l post lit grp e :
  lines = (pre ++ l :: post)%list ->
  energy_literal g = POk lit ->
  Re.match_energy lit l = Some grp ->
  float grp = POk e ->
  forallb (fun l' => match Re.match_energy lit l' with Some _ => false | None => true end) post
    = true ->
  g_error (read lines g) = false ->
  g_energy (read lines g) = Some e.
Proof.
  intros Hlines Hlit Hm Hf Hpost Herr.
  destruct (read_no_error_done lines g Herr) as (r & u & Hs & _ & _ & Hen).
  rewrite Hen; subst lines.
  rewrite scan_app in Hs.
  pose proof (scan_pres (fun r => frame (self r) g) (pre ++ l :: post) (read_ltype g) 0 pre
                (fun j l' _ => read_line_frame _ _ j l' g) (mkR g None None) (frame_refl g)) as Hfr.
  destruct (scan (pre ++ l :: post) (read_ltype g) 0 pre (mkR g None None)) as [s1 u1 | s1 ex];
    [| discriminate].
  cbn [scan] in Hs; unfold bind at 1 in Hs.
  assert (Hl1 : energy_literal (self s1) = POk lit)
    by (rewrite (energy_literal_frame _ _ Hfr); exact Hlit).
  destruct (read_line (pre ++ l :: post) (read_ltype g) (0 + length pre) l s1) as [s2 u2 | s2 ex]
    eqn:Hrl; [| discriminate].
  destruct (read_line_match _ _ _ _ lit grp e s1 s2 u2 Hl1 Hm Hf Hrl) as (He2 & _ & Hfr2).
  refine (proj1 (scan_done_ind (fun r => g_energy (self r) = Some e /\ frame (self r) g)
                   _ _ _ post s2 r u _ (conj He2 (frame_trans _ _ _ Hfr2 Hfr)) Hs)).
  intros j l' s3 s4 u' Hin (H1 & H2) Hstep.
  rewrite forallb_forall in Hpost; specialize (Hpost l' Hin).
  assert (Hl3 : energy_literal (self s3) = POk lit)
    by (rewrite (energy_literal_frame _ _ H2); exact Hlit).
  destruct (Re.match_energy lit l') eqn:Hm'; [discriminate |].
  pose proof (read_line_no_match (pre ++ l :: post)%list (read_ltype g) j l' lit s3 Hl3 Hm') as Hq; rewrite Hstep in Hq.
  destruct Hq as (Q1 & _ & Q3); split; [rewrite Q1; exact H1 | exact (frame_trans _ _ _ Q3 H2)].
Qed.

Lemma read_energy_is_last_match_witness :
  g_energy (read log_two_energies gulp0) = Some (PFin (-12.50000000)%Q).
Proof.
  apply (read_energy_is_last_match log_two_energies gulp0
           ["  Total lattice energy       =         -10.00000000 eV"]
           "  Total lattice energy       =         -12.50000000 eV"
           (cart_lines ++ ["  Job Finished at 10:00.00 1st January 2024"])%list
           "Total lattice energy" "-12.50000000");
    vm_compute; reflexivity.
Defined.

(** Under a non-zero pressure (and without symmetry) [GULP.read] only
    takes the energy from "Total lattice enthalpy" lines: from a fresh
    calculator, a log without such a line is read as an error, even when it
    has "Total lattice energy" lines. *)
Theorem read_pressure_needs_enthalpy lines g q :
  g_symmetry g = false ->
  g_pstress g = Some (PFin q) ->
  Qeq_bool q 0 = false ->
  g_energy g = None ->
  forallb (fun l => match Re.match_energy "Total lattice enthalpy" l with
                    | Some _ => false | None => true end) lines = true ->
  g_error (read lines g) = true /\ g_energy (read lines g) = None.
Proof.
  intros Hs Hp Hq Hg Hall.
  apply (read_without_energy_line lines g "Total lattice enthalpy" Hg); [| exact Hall].
  unfold energy_literal; rewrite Hs, Hp, Hq; reflexivity.
Qed.

Lemma read_pressure_needs_enthalpy_witness :
  g_error (read log_no_marker gulp_pressure) = true.
Proof.
  exact (proj1 (read_pressure_needs_enthalpy log_no_marker gulp_pressure 1
                  eq_refl eq_refl eq_refl eq_refl ltac:(vm_compute; reflexivity))).
Defined.

(** A calculator built with [symmetry=True] on ASE [Atoms] (no pyxtal
    object) reads every log as an error: the energy pattern needs
    [self.pyxtal.group], whose lookup raises on the first line, and an
    empty log has no lattice. *)
Theorem read_symmetry_without_pyxtal lines g :
  g_symmetry g = true ->
  g_pyxtal g = None ->
  g_error (read lines g) = true /\ g_energy (read lines g) = None.
Proof.
  intros Hs Hp; destruct (read_fields lines g) as (He & Hen & _).
  cbv zeta in He, Hen.
  assert (El : energy_literal g = PErr AttributeError)
    by (unfold energy_literal; rewrite Hs, Hp; reflexivity).
  assert (Hn : no_lattice (read_try lines g) = true).
  { unfold read_try; destruct lines as [| l ls]; [reflexivity |].
    cbn [scan]; unfold bind at 1; unfold read_line at 1.
    rewrite bind_get_eq; cbn [self]; rewrite El, bind_lift_err; reflexivity. }
  rewrite Hn in He, Hen; rewrite orb_true_r in He; cbn in Hen.
  split; assumption.
Qed.

Lemma read_symmetry_without_pyxtal_witness :
  g_error (read log_inf gulp_sym_atoms) = true.
Proof. exact (proj1 (read_symmetry_without_pyxtal log_inf gulp_sym_atoms eq_refl eq_refl)). Defined.

(** On a calculator whose energy is still unset (as after [__init__]), a
    [read] without error leaves a finite-or-infinite, non-NaN [energy] and
    an [energy_per_atom]; the value [single_optimize] returns is never
    [None] on success. *)
Theorem read_success_has_energy_per_atom lines g :
  g_energy g = None ->
  g_error (read lines g) = false ->
  exists e epa, g_energy (read lines g) = Some e /\ isnan e = false /\
                g_energy_per_atom (read lines g) = Some epa.
Proof.
  intros Hg Herr.
  destruct (read_no_error_done lines g Herr) as (r & u & Hs & _ & Hbad & Hen).
  pose proof (scan_done_ind (fun r => g_energy (self r) = None \/ g_energy_per_atom (self r) <> None)
                lines (read_ltype g) 0 lines (mkR g None None) r u
                (fun j l s1 s2 u' _ H1 H2 => read_line_per_atom lines (read_ltype g) j l s1 s2 u' H1 H2)
                (or_introl Hg) Hs) as Hinv.
  unfold energy_bad in Hbad.
  destruct (g_energy (self r)) as [e |] eqn:Er; [| discriminate].
  destruct Hinv as [Hinv | Hinv]; [congruence |].
  rewrite read_per_atom; unfold read_try; rewrite Hs.
  destruct (g_energy_per_atom (self r)) as [epa |]; [| contradiction].
  exists e, epa; rewrite Hen; split; [reflexivity | split; [exact Hbad | reflexivity]].
Qed.

Lemma read_success_has_energy_per_atom_witness :
  exists e epa, g_energy (read log_two_energies gulp0) = Some e /\ isnan e = false /\
                g_energy_per_atom (read log_two_energies gulp0) = Some epa.
Proof.
  exact (read_success_has_energy_per_atom log_two_energies gulp0 eq_refl
           ltac:(vm_compute; reflexivity)).
Defined.

(** The fractional-coordinates block of [GULP.read] (and of [GULP_OC.read]):
    when the row loop succeeds, it has read exactly the lines before the
    first dashed line, one coordinate row and one species (second field)
    per line; the lines after the dashed line are never read. *)
Theorem coord_rows_block ls xyz sp :
  coord_rows ls = POk (xyz, sp) ->
  exists pre d post,
    ls = (pre ++ d :: post)%list /\ contains d "------------" = true /\
    forallb (fun l => negb (contains l "------------")) pre = true /\
    length xyz = length pre /\ map (fun l => nth 1 (split l) "") pre = sp.
Proof.
  revert xyz sp; induction ls as [| l ls IH]; intros xyz sp H; cbn [coord_rows] in H;
    [discriminate |].
  destruct (contains l "------------") eqn:C.
  - injection H as <- <-; exists [], l, ls; repeat split; assumption.
  - unfold pbind in H; destruct (floats (slice 3 6 (split l))) as [x |]; [| discriminate].
    destruct (index (split l) 1) as [a |] eqn:Ea; [| discriminate].
    destruct (coord_rows ls) as [[xs ss] |] eqn:Er; [| discriminate].
    injection H as <- <-.
    destruct (IH xs ss eq_refl) as (pre & d & post & -> & Hd & Hpre & Hlen & Hsp).
    exists (l :: pre), d, post; cbn; rewrite C, Hpre; cbn.
    repeat split; [exact Hd | rewrite Hlen; reflexivity |].
    rewrite (index_nth _ _ _ "" Ea), Hsp; reflexivity.
Qed.

Lemma coord_rows_block_witness :
  exists pre d post,
    ["  1 Na c 0.0 0.0 0.0 0.0"; "--------------------"; "  2 Cl c 0.5 0.5 0.5"]
      = (pre ++ d :: post)%list /\ contains d "------------" = true /\
    forallb (fun l => negb (contains l "------------")) pre = true /\
    length [[PFin 0.0; PFin 0.0; PFin 0.0]] = length pre /\
    map (fun l => nth 1 (split l) "") pre = ["Na"].
Proof.
  apply (coord_rows_block _ [[PFin 0.0; PFin 0.0; PFin 0.0]] ["Na"]); vm_compute; reflexivity.
Defined.

(** The "Final internal derivatives" block of [GULP.read]: when the row loop
    succeeds, it has read one force row per line before the first dashed
    line, and every row has three components (short rows are padded). *)
Theorem forces_rows_block ls rs :
  forces_rows ls = POk rs ->
  Forall (fun r => length r = 3%nat) rs /\
  exists pre d post,
    ls = (pre ++ d :: post)%list /\ contains d "------------" = true /\
    forallb (fun l => negb (contains l "------------")) pre = true /\
    length rs = length pre.
Proof.
  revert rs; induction ls as [| l ls IH]; intros rs H; cbn [forces_rows] in H; [discriminate |].
  destruct (contains l "------------") eqn:C.
  - injection H as <-; split; [constructor |]; exists [], l, ls; repeat split; assumption.
  - unfold pbind in H; destruct (force_row l) as [r |] eqn:Ef; [| discriminate].
    destruct (forces_rows ls) as [rs' |] eqn:Er; [| discriminate].
    injection H as <-.
    destruct (IH rs' eq_refl) as (Hall & pre & d & post & -> & Hd & Hpre & Hlen).
    split; [constructor; [exact (force_row_length _ _ Ef) | exact Hall] |].
    exists (l :: pre), d, post; cbn; rewrite C, Hpre; cbn.
    repeat split; [exact Hd | rewrite Hlen; reflexivity].
Qed.

Lemma forces_rows_block_witness :
  exists rs, forces_rows ["  1 Na c   1.0-2.0 3.0"; "--------------------"] = POk rs /\
  Forall (fun r => length r = 3%nat) rs /\
  exists pre d post,
    ["  1 Na c   1.0-2.0 3.0"; "--------------------"] = (pre ++ d :: post)%list /\
    contains d "------------" = true /\
    forallb (fun l => negb (contains l "------------")) pre = true /\
    length rs = length pre.
Proof.
  eexists; split; [vm_compute; reflexivity |].
  apply forces_rows_block; vm_compute; reflexivity.
Defined.

(** A block whose dashed closing line is missing makes the row loop raise
    ([IndexError] past the end of the log, or the first bad row), for both
    the coordinates and the forces. *)
Theorem rows_without_sentinel_raise ls :
  forallb (fun l => negb (contains l "------------")) ls = true ->
  (exists e, coord_rows ls = PErr e) /\ (exists e, forces_rows ls = PErr e).
Proof.
  intros H; split; [exact (coord_rows_no_sentinel ls H) | exact (forces_rows_no_sentinel ls H)].
Qed.

Lemma rows_without_sentinel_raise_witness :
  (exists e, coord_rows ["  1 Na c 0.0 0.0 0.0 0.0"] = PErr e) /\
  (exists e, forces_rows ["  1 Na c 0.0 0.0 0.0 0.0"] = PErr e).
Proof. apply rows_without_sentinel_raise; reflexivity. Defined.

(** [GULP_OC.read] on a log without a coordinates block ([self.positions]
    still [None]) for a structure with molecular sites: if "Job Finished"
    was seen, the slicing of the site loop raises [TypeError] at the first
    site and the bare [except] swallows it, so no site is updated and
    [optimize_lattice] is not called; the read returns the scanned state
    with only the cell and the new lattice assigned. *)
Theorem oc_read_no_positions lm su ol lines o o1 u :
  GULP_OC.scan lines 0 lines o = Done o1 u ->
  GULP_OC.positions o1 = None ->
  GULP_OC.mol_sizes o1 <> [] ->
  GULP_OC.read lm su ol lines o = Done (GULP_OC.assign_lattice lm o1) tt.
Proof.
  intros Hs Hp Hm; unfold GULP_OC.read, bind, modify; rewrite Hs; f_equal.
  unfold GULP_OC.finish.
  destruct (GULP_OC.optimized (GULP_OC.assign_lattice lm o1)); [| reflexivity].
  destruct (GULP_OC.mol_sizes o1) as [| n sizes] eqn:Em; [contradiction |].
  replace (GULP_OC.mol_sizes (GULP_OC.assign_lattice lm o1)) with (n :: sizes)
    by (rewrite <- Em; reflexivity).
  cbn [GULP_OC.update_sites bind get lift].
  replace (GULP_OC.positions (GULP_OC.assign_lattice lm o1)) with (@None (list (list pyfloat)))
    by (rewrite <- Hp; reflexivity).
  reflexivity.
Qed.

Lemma oc_read_no_positions_witness :
  exists o1, GULP_OC.scan log_no_cell 0 log_no_cell oc0 = Done o1 tt /\
    GULP_OC.read matrix_of store_update keep_opt log_no_cell oc0
    = Done (GULP_OC.assign_lattice matrix_of o1) tt.
Proof.
  destruct (GULP_OC.scan log_no_cell 0 log_no_cell oc0) as [o1 u | o1 e] eqn:E;
    [| vm_compute in E; discriminate E].
  exists o1; destruct u; split; [reflexivity |].
  apply (oc_read_no_positions matrix_of store_update keep_opt log_no_cell oc0 o1 tt E);
    vm_compute in E; injection E as <-; [reflexivity | discriminate].
Defined.

(** [GULP_OC.run] on a structure without molecular sites: [write] raises
    [IndexError] on [self.structure.mol_sites[0]], so the run stops before
    gulp is started and the recorded events are unchanged. *)
Theorem oc_run_no_mol_sites set_order lm su ol process inp clean pause rs :
  GULP_OC.mol_sites inp = [] ->
  exists d', GULP_OC.run set_order lm su ol process inp clean pause rs
             = Raised (GULP_OC.mkRun d' (GULP_OC.events rs) (GULP_OC.oc rs)) IndexError.
Proof.
  intros Hm; unfold GULP_OC.run, GULP_OC.on_deck, zoom, bind, modify, GULP_OC.write.
  destruct (GULP_OC.lat_abc inp) as [[a b] c]; destruct (GULP_OC.lat_angles inp) as [[al be] ga].
  rewrite Hm; eexists; reflexivity.
Qed.

Lemma oc_run_no_mol_sites_witness :
  exists d', GULP_OC.run (fun xs => xs) matrix_of store_update keep_opt (fun _ => []) oc_input_empty true false run0
             = Raised (GULP_OC.mkRun d' [] oc0) IndexError.
Proof. exact (oc_run_no_mol_sites _ _ _ _ _ oc_input_empty true false _ eq_refl). Defined.

(** [GULP.run(clean=True)] after a calculation read without error: the
    input deck and the log are removed, every other file of the folder
    (those there before and those gulp wrote) is kept, the calculator holds
    what [read] found, and the working directory is restored. *)
Theorem run_clean_success sh set_order w nm folder_name process st :
  dump nm = None ->
  input nm <> output nm ->
  g_error (read (fst (process (write set_order w))) (calc st)) = false ->
  exists st',
    run sh set_order w nm folder_name process true st = Ok st' tt /\
    cwd st' = cwd st /\
    calc st' = read (fst (process (write set_order w))) (calc st) /\
    forall p, has_file p (files_in st') =
      negb (String.eqb p (input nm)) && negb (String.eqb p (output nm)) &&
      (has_file p (files_in st) || has_file p (snd (process (write set_order w)))).
Proof.
  intros Hd Hio Herr; unfold run.
  destruct (process (write set_order w)) as [log created]; cbn [fst snd] in *.
  rewrite Herr; unfold clean; rewrite Hd; cbn [negb].
  set (fs2 := execute nm created (add_file (input nm) (files_in st))).
  assert (Hin : has_file (input nm) fs2 = true)
    by (unfold fs2; rewrite has_execute, has_add, String.eqb_refl, !orb_true_r; reflexivity).
  assert (Hout : has_file (output nm) (drop_file (input nm) fs2) = true).
  { rewrite has_drop; unfold fs2; rewrite has_execute, String.eqb_refl, orb_true_r.
    apply String.eqb_neq in Hio; rewrite String.eqb_sym, Hio; reflexivity. }
  unfold os_remove; rewrite Hin; cbv beta iota; rewrite Hout; cbv beta iota.
  eexists; split; [reflexivity |]; cbn [files_in cwd calc].
  split; [reflexivity | split; [reflexivity |]].
  intros p; rewrite !has_drop; unfold fs2; rewrite has_execute, has_add.
  destruct (String.eqb p (input nm)), (String.eqb p (output nm)); cbn;
    [reflexivity | reflexivity | reflexivity |].
  destruct (has_file p created), (has_file p (files_in st)); reflexivity.
Qed.

Lemma run_clean_success_witness :
  exists st',
    run no_shell (fun xs => xs) w_single files0 "tmp" (proc log_two_energies) true start = Ok st' tt /\
    cwd st' = cwd start /\
    calc st' = read (fst (proc log_two_energies (write (fun xs => xs) w_single))) (calc start) /\
    forall p, has_file p (files_in st') =
      negb (String.eqb p (input files0)) && negb (String.eqb p (output files0)) &&
      (has_file p (files_in start) ||
       has_file p (snd (proc log_two_energies (write (fun xs => xs) w_single)))).
Proof.
  apply run_clean_success; [reflexivity | discriminate | vm_compute; reflexivity].
Defined.

(** [GULP.run(clean=True)] after a calculation read as an error: the deck
    and the log are kept under the names [<input>_error] and
    [<output>_error] (renamed by [mv]), and the working directory is
    restored.  The names must be single shell words and must not collide
    with the renamed ones. *)
Theorem run_clean_error sh set_order w nm folder_name process st :
  dump nm = None ->
  word (input nm) = true -> word (output nm) = true ->
  input nm <> output nm ->
  output nm <> input nm ++ "_error" ->
  input nm <> output nm ++ "_error" ->
  g_error (read (fst (process (write set_order w))) (calc st)) = true ->
  exists st',
    run sh set_order w nm folder_name process true st = Ok st' tt /\
    cwd st' = cwd st /\
    calc st' = read (fst (process (write set_order w))) (calc st) /\
    has_file (input nm) (files_in st') = false /\
    has_file (output nm) (files_in st') = false /\
    has_file (input nm ++ "_error") (files_in st') = true /\
    has_file (output nm ++ "_error") (files_in st') = true.
Proof.
  intros Hd Hwi Hwo Hio Hoie Hioe Herr; unfold run.
  destruct (process (write set_order w)) as [log created]; cbn [fst snd] in *.
  rewrite Herr; unfold clean; rewrite Hd.
  assert (E1 := proj2 (String.eqb_neq _ _) Hio).
  assert (E2 := proj2 (String.eqb_neq _ _) (not_eq_sym Hio)).
  assert (E3 := proj2 (String.eqb_neq _ _) Hoie).
  assert (E4 := proj2 (String.eqb_neq _ _) (not_eq_sym Hoie)).
  assert (E5 := proj2 (String.eqb_neq _ _) Hioe).
  assert (E6 := proj2 (String.eqb_neq _ _) (not_eq_sym Hioe)).
  assert (E7 := neq_suffix (input nm) "_error" ltac:(discriminate)).
  rewrite String.eqb_sym in E7.
  assert (E8 := neq_suffix (output nm) "_error" ltac:(discriminate)).
  rewrite String.eqb_sym in E8.
  set (fs2 := execute nm created (add_file (input nm) (files_in st))).
  assert (Hin : has_file (input nm) fs2 = true)
    by (unfold fs2; rewrite has_execute, has_add, String.eqb_refl, !orb_true_r; reflexivity).
  rewrite (mv_words sh (input nm)) by (auto using word_suffix).
  rewrite Hin, neq_suffix by discriminate; cbn [andb negb].
  set (fs3 := add_file (input nm ++ "_error") (drop_file (input nm) fs2)).
  assert (Hout : has_file (output nm) fs3 = true).
  { unfold fs3; rewrite has_add, has_drop; unfold fs2; rewrite has_execute, String.eqb_refl.
    rewrite E2, E3, !orb_true_r; reflexivity. }
  rewrite (mv_words sh (output nm)) by (auto using word_suffix).
  rewrite Hout, neq_suffix by discriminate; cbn [andb negb].
  eexists; split; [reflexivity |]; cbn [files_in cwd calc].
  split; [reflexivity | split; [reflexivity |]].
  assert (E9 := neq_suffix (input nm) "_error" ltac:(discriminate)).
  assert (E10 := neq_suffix (output nm) "_error" ltac:(discriminate)).
  unfold fs3; repeat first [rewrite has_add | rewrite has_drop | rewrite String.eqb_refl].
  rewrite ?E1, ?E2, ?E3, ?E4, ?E5, ?E6, ?E7, ?E8, ?E9, ?E10; cbn [negb andb orb].
  rewrite !orb_true_r; repeat split.
Qed.

Lemma run_clean_error_witness :
  exists st',
    run no_shell (fun xs => xs) w_single files0 "tmp" (proc log_no_cell) true start = Ok st' tt /\
    cwd st' = cwd start /\
    calc st' = read (fst (proc log_no_cell (write (fun xs => xs) w_single))) (calc start) /\
    has_file (input files0) (files_in st') = false /\
    has_file (output files0) (files_in st') = false /\
    has_file (input files0 ++ "_error") (files_in st') = true /\
    has_file (output files0 ++ "_error") (files_in st') = true.
Proof.
  apply run_clean_error; try reflexivity; try discriminate; vm_compute; reflexivity.
Defined.

(** [GULP.run(clean=True)] with a [dump] file that is neither in the folder
    nor written by gulp, and whose name is none of the deck, the log and
    their [_error] names: after the results are read and the deck and log
    are removed (no error) or renamed (error), [os.remove(self.dump)]
    raises [FileNotFoundError], and the working directory is left at the
    calculation folder.  The deck and log names are distinct single shell
    words that do not collide with the renamed ones. *)
Theorem run_dump_missing sh set_order w nm folder_name process st d :
  dump nm = Some d ->
  word (input nm) = true -> word (output nm) = true ->
  input nm <> output nm ->
  output nm <> input nm ++ "_error" ->
  input nm <> output nm ++ "_error" ->
  ~ In d [input nm; output nm; input nm ++ "_error"; output nm ++ "_error"] ->
  has_file d (files_in st) = false ->
  has_file d (snd (process (write set_order w))) = false ->
  exists fs,
    run sh set_order w nm folder_name process true st =
    Err (mkRunState fs folder_name (read (fst (process (write set_order w))) (calc st)))
        (FileNotFoundError d).
Proof.
  intros Hd Hwi Hwo Hio Hoie Hioe Hdn Hd1 Hd2; unfold run.
  destruct (process (write set_order w)) as [log created]; cbn [fst snd] in *.
  assert (Ed1 : String.eqb d (input nm) = false)
    by (apply String.eqb_neq; intros ->; apply Hdn; left; reflexivity).
  assert (Ed2 : String.eqb d (output nm) = false)
    by (apply String.eqb_neq; intros ->; apply Hdn; right; left; reflexivity).
  assert (Ed3 : String.eqb d (input nm ++ "_error") = false)
    by (apply String.eqb_neq; intros ->; apply Hdn; right; right; left; reflexivity).
  assert (Ed4 : String.eqb d (output nm ++ "_error") = false)
    by (apply String.eqb_neq; intros ->; apply Hdn; right; right; right; left; reflexivity).
  unfold clean; rewrite Hd.
  set (fs2 := execute nm created (add_file (input nm) (files_in st))).
  assert (Hd3 : has_file d fs2 = false)
    by (unfold fs2; rewrite has_execute, has_add, Hd1, Hd2, Ed1, Ed2; reflexivity).
  destruct (g_error (read log (calc st))); cbn [negb].
  - cbv beta iota; unfold os_remove.
    rewrite (mv_keeps_absent sh (output nm)); auto using word_suffix.
    + eexists; reflexivity.
    + apply mv_keeps_absent; auto using word_suffix.
  - assert (Hin : has_file (input nm) fs2 = true)
      by (unfold fs2; rewrite has_execute, has_add, String.eqb_refl, !orb_true_r; reflexivity).
    assert (Hout : has_file (output nm) (drop_file (input nm) fs2) = true).
    { rewrite has_drop; unfold fs2; rewrite has_execute, String.eqb_refl, orb_true_r.
      apply String.eqb_neq in Hio; rewrite String.eqb_sym, Hio; reflexivity. }
    assert (Hdump : has_file d (drop_file (output nm) (drop_file (input nm) fs2)) = false)
      by (rewrite !has_drop, Hd3, !andb_false_r; reflexivity).
    unfold os_remove; rewrite Hin; cbv beta iota; rewrite Hout; cbv beta iota.
    rewrite Hdump; eexists; reflexivity.
Qed.

Lemma run_dump_missing_witness :
  exists fs,
    run no_shell (fun xs => xs) w_single files_dump "tmp" (proc log_no_cell) true start =
    Err (mkRunState fs "tmp"
           (read (fst (proc log_no_cell (write (fun xs => xs) w_single))) (calc start)))
        (FileNotFoundError "dump.cif").
Proof.
  apply run_dump_missing; first [reflexivity | discriminate | vm_compute; reflexivity | idtac].
  cbn; intros [H | [H | [H | [H | []]]]]; discriminate H.
Defined.

(** [GULP.to_pyxtal]: [self.to_ase()] is called outside the [try], so an
    exception of the [Atoms] constructor leaves [to_pyxtal]; otherwise the
    tolerances 1e-2, 1e-3, 1e-4, 1e-5 are tried in turn and the first
    structure that [from_seed] accepts is returned, and when all four fail
    the object left by the last attempt is returned, so the loop never
    raises [UnboundLocalError]. *)
Theorem to_pyxtal_first_success {atoms : Type} ase_atoms lm
    (from_seed : atoms -> Q -> pyxtal + pyxtal) sites g :
  (forall e, to_ase ase_atoms lm sites g = PErr e ->
             to_pyxtal ase_atoms lm from_seed sites g = PErr e) /\
  (forall a, to_ase ase_atoms lm sites g = POk a ->
   exists p, to_pyxtal ase_atoms lm from_seed sites g = POk p /\
   ((exists pre t post,
       [1 # 100; 1 # 1000; 1 # 10000; 1 # 100000]%Q = (pre ++ t :: post)%list /\
       from_seed a t = inl p /\ Forall (fun t' => exists q, from_seed a t' = inr q) pre) \/
    (Forall (fun t => exists q, from_seed a t = inr q) [1 # 100; 1 # 1000; 1 # 10000; 1 # 100000]%Q
     /\ from_seed a (1 # 100000)%Q = inr p))).
Proof.
  split.
  - intros e H; unfold to_pyxtal; rewrite H; reflexivity.
  - intros a H; unfold to_pyxtal; rewrite H; cbn [pbind].
    apply seed_loop_first_success.
Qed.

Lemma to_pyxtal_first_success_witness :
  to_pyxtal ase_check matrix_of seed_atoms ["C"; "C"] gulp0 = PErr ValueError /\
  to_pyxtal ase_check matrix_of seed_atoms ["C"] gulp0 = POk px_b.
Proof.
  split.
  - apply (proj1 (to_pyxtal_first_success ase_check matrix_of seed_atoms ["C"; "C"] gulp0)).
    vm_compute; reflexivity.
  - destruct (proj2 (to_pyxtal_first_success ase_check matrix_of seed_atoms ["C"] gulp0)
                (["C"], [[PFin 0.0; PFin 0.0; PFin 0.0]]) ltac:(vm_compute; reflexivity))
      as (p & Hp & _).
    rewrite Hp; vm_compute in Hp; injection Hp as <-; reflexivity.
Defined.

(** [single_optimize]: the run itself never raises; [(None, None, 0, True)]
    is returned when the read of the log reports an error, and otherwise
    the structure ([calc.pyxtal], or [calc.to_pyxtal()] when the input was
    ASE [Atoms]), [calc.energy_per_atom], [calc.cputime] and [False], except
    that an exception of [calc.to_ase()] leaves [single_optimize]; the
    working directory is restored in every case. *)
Theorem single_optimize_result sh {atoms : Type} ase_atoms lm
    (from_seed : atoms -> Q -> pyxtal + pyxtal) set_order w label path process clean_flag
    px lat frac symmetry pstress st :
  let c := read (fst (process (write set_order w))) (init px lat frac symmetry pstress) in
  let r := single_optimize sh ase_atoms lm from_seed set_order w label path process clean_flag
             px lat frac symmetry pstress st in
  exists st',
    calc st' = c /\ cwd st' = cwd st /\
    (g_error c = true -> r = Ok st' (None, None, PFin 0, true)) /\
    (forall q, g_error c = false -> g_pyxtal c = Some q ->
       r = Ok st' (Some q, g_energy_per_atom c, g_cputime c, false)) /\
    (forall a, g_error c = false -> g_pyxtal c = None -> to_ase ase_atoms lm (w_sites w) c = POk a ->
       exists p, to_pyxtal ase_atoms lm from_seed (w_sites w) c = POk p /\
                 r = Ok st' (Some p, g_energy_per_atom c, g_cputime c, false)) /\
    (forall e, g_error c = false -> g_pyxtal c = None -> to_ase ase_atoms lm (w_sites w) c = PErr e ->
       r = Err st' (PyError e)).
Proof.
  intros c r; unfold r, single_optimize, run.
  set (calc0 := init px lat frac symmetry pstress) in *.
  destruct (process (write set_order w)) as [log created]; cbn [fst snd] in c.
  set (nm := mkFiles (label ++ "gulp.in") (label ++ "gulp.log") None).
  assert (Hcl : exists fs3, (if clean_flag then
      match clean sh nm (g_error c) (execute nm created (add_file (input nm) (files_in st))) with
      | Ok fs3 _ => Ok (mkRunState fs3 (cwd st) c) tt
      | Err fs3 e => Err (mkRunState fs3 path c) e
      end
    else Ok (mkRunState (execute nm created (add_file (input nm) (files_in st))) (cwd st) c) tt)
    = Ok (mkRunState fs3 (cwd st) c) tt).
  { destruct clean_flag; [| eexists; reflexivity].
    unfold clean; cbn [dump nm].
    destruct (g_error c); [eexists; reflexivity |].
    set (fs2 := execute nm created (add_file (input nm) (files_in st))).
    assert (Hin : has_file (input nm) fs2 = true)
      by (unfold fs2; rewrite has_execute, has_add, String.eqb_refl, !orb_true_r; reflexivity).
    assert (Hio : String.eqb (output nm) (input nm) = false).
    { apply String.eqb_neq; cbn; intros E; apply app_cancel_l in E; discriminate E. }
    assert (Hout : has_file (output nm) (drop_file (input nm) fs2) = true).
    { rewrite has_drop; unfold fs2; rewrite has_execute, String.eqb_refl, orb_true_r, Hio.
      reflexivity. }
    unfold os_remove; rewrite Hin; cbv beta iota; rewrite Hout; eexists; reflexivity. }
  destruct Hcl as [fs3 Hcl]; cbn [calc files_in cwd] in *; fold c; rewrite Hcl.
  cbn [calc]; exists (mkRunState fs3 (cwd st) c).
  split; [reflexivity | split; [reflexivity |]].
  destruct (g_error c) eqn:He.
  - split; [reflexivity |]; repeat split; intros; discriminate.
  - split; [discriminate |].
    split; [intros q _ Hq; rewrite Hq; reflexivity |].
    split.
    + intros a _ Hp Ha; rewrite Hp.
      destruct (proj2 (to_pyxtal_first_success ase_atoms lm from_seed (w_sites w) c) a Ha)
        as (p & Hp' & _).
      exists p; rewrite Hp'; split; reflexivity.
    + intros e _ Hp Ha; rewrite Hp.
      rewrite (proj1 (to_pyxtal_first_success ase_atoms lm from_seed (w_sites w) c) e Ha).
      reflexivity.
Qed.

Lemma single_optimize_result_witness :
  exists st',
    single_optimize no_shell ase_check matrix_of seed_atoms (fun xs => xs) w_single "_" "tmp"
      (proc log_two_energies) true None (FromMatrix cube5 "cubic")
      [[PFin 0.0; PFin 0.0; PFin 0.0]; [PFin 0.5; PFin 0.5; PFin 0.5]] false None start
    = Err st' (PyError ValueError).
Proof.
  destruct (single_optimize_result no_shell ase_check matrix_of seed_atoms (fun xs => xs)
              w_single "_" "tmp" (proc log_two_energies) true None (FromMatrix cube5 "cubic")
              [[PFin 0.0; PFin 0.0; PFin 0.0]; [PFin 0.5; PFin 0.5; PFin 0.5]] false None start)
    as (st' & _ & _ & _ & _ & _ & H).
  exists st'; apply H; vm_compute; reflexivity.
Defined.

(** The column repair of the forces block ([GULP.read], from ASE): when the
    first field holds two minus signs after its first character (three
    numbers printed without separating spaces), it is cut at those signs
    into three fields that spell out the original field, the last two
    starting with the minus sign; the other two fields of the row are
    discarded. *)
Theorem repair_row_splits_glued g0 g1 g2 m0 m1 rest a b c :
  min_index g0 = m0 :: m1 :: rest ->
  repair_row (g0, g1, g2) = (a, b, c) ->
  (a ++ b ++ c = g0) /\ (exists b', b = String "-" b') /\ (exists c', c = String "-" c').
Proof.
  intros Hm Hr; unfold repair_row in Hr; rewrite Hm in Hr; injection Hr as <- <- <-.
  assert (Hlt : (m0 < m1)%nat)
    by (unfold min_index in Hm; exact (minus_positions_sorted _ _ _ _ Hm m1 (or_introl eq_refl))).
  destruct (min_index_in g0 m0) as (B0 & N0 & H0); [rewrite Hm; left; reflexivity |].
  destruct (min_index_in g0 m1) as (B1 & N1 & H1); [rewrite Hm; right; left; reflexivity |].
  unfold str_upto, str_from; rewrite str_length_list in *.
  set (L := list_ascii_of_string g0) in *.
  split; [| split].
  - apply list_string_inj; rewrite !list_ascii_app, !list_substring; fold L.
    assert (Ef : firstn (length L - m1) (skipn m1 L) = skipn m1 L)
      by (apply firstn_all2; rewrite length_skipn; lia).
    rewrite Ef.
    replace (skipn m1 L) with (skipn (m1 - m0) (skipn m0 L))
      by (rewrite skipn_skipn; f_equal; lia).
    rewrite firstn_skipn; cbn [skipn]; apply firstn_skipn.
  - destruct (skipn m0 L) as [| x r] eqn:E; [contradiction |]; cbn in H0; subst x.
    destruct (m1 - m0)%nat as [| k] eqn:Ek; [lia |].
    exists (string_of_list_ascii (firstn k r)).
    apply list_string_inj; rewrite list_substring; fold L; rewrite E.
    cbn [firstn list_ascii_of_string]; rewrite list_ascii_of_string_of_list_ascii; reflexivity.
  - destruct (skipn m1 L) as [| x r] eqn:E; [contradiction |]; cbn in H1; subst x.
    exists (string_of_list_ascii r).
    apply list_string_inj; rewrite list_substring; fold L.
    assert (Ef : firstn (length L - m1) (skipn m1 L) = skipn m1 L)
      by (apply firstn_all2; rewrite length_skipn; lia).
    rewrite Ef.
    rewrite E; cbn; rewrite list_ascii_of_string_of_list_ascii; reflexivity.
Qed.

Lemma repair_row_splits_glued_witness :
  ("0.1" ++ "-0.2" ++ "-0.3" = "0.1-0.2-0.3") /\ (exists b', "-0.2" = String "-" b') /\
  (exists c', "-0.3" = String "-" c').
Proof.
  exact (repair_row_splits_glued "0.1-0.2-0.3" "4.0" " " 3 7 [] "0.1" "-0.2" "-0.3"
           eq_refl eq_refl).
Defined.

End Extras.
